(** * itbit.js: the request pipeline of the itBit REST client

    A shallow embedding of [src/itbit.js]: the JavaScript values the client
    handles, the built-ins it calls ([JSON.stringify], [querystring.stringify],
    [_.isObject], [_.isEmpty], string conversion), the private and public
    request builders, the response classifier of [executeRequest] and the
    endpoint wrappers, followed by the properties of the pipeline.

    Conventions of the model.
    - A JavaScript string is a [string]: one character per code unit, code
      units below 256.  Its UTF-8 encoding is written out in [Buffer.from].
    - The numbers the client computes with (clock readings, the nonce counter,
      status codes) are integers and are modelled in [Z]. JavaScript keeps
      integers exact below 2^53 and prints them in plain decimal there; a
      clock reading in milliseconds and a counter started from one stay in
      that range. Any other number, which the client only converts to a
      string, is the decimal numeral JavaScript prints it from.
    - A value is plain data, as an object literal or [JSON.parse] builds it:
      no function, symbol or bigint, and every object inherits from
      [Object.prototype], every array from [Array.prototype].
    - An object is the list of its own enumerable properties in enumeration
      order, which is the order [JSON.stringify] and [querystring.stringify]
      follow.
    - The network ([request]), the clock ([new Date().getTime()]) are inputs
      of each call; the primitives of [crypto] and the HTML text extraction of
      [cheerio] are parameters of the pipeline. *)

From Stdlib Require Import ZArith NArith List String Ascii Bool Lia DecimalString Sorted.
From Stdlib Require Import DecimalPos DecimalZ.
Import ListNotations.

Set Warnings "-register-all".
Local Open Scope string_scope.
Local Open Scope Z_scope.

(* ===================================================================== *)
(** ** JavaScript values and the built-ins the client relies on          *)
(* ===================================================================== *)

Module JS.

(** A number that is not an integer of the exact range: [NaN], an infinity,
    or the finite number s * 10^(n - k), where k is the number of digits of
    [s]. These are the s and n that Number::toString (ECMA-262, 6.1.6.1.20)
    prints a number from: the shortest digits that read back as the number. *)
Inductive numeral : Type :=
| NaN
| Infinity (negative : bool)
| Decimal (negative : bool) (s : positive) (n : Z).

Inductive value : Type :=
| VUndefined
| VNull
| VBool (b : bool)
| VNum (n : Z)
| VReal (x : numeral)
| VStr (s : string)
| VArr (items : list value)
| VObj (props : list (string * value)).

(** The double quote character, code 34. *)
Definition dquote : ascii := "034"%char.

(** [!!v]: what an [if (v)] tests. *)
Definition truthy (v : value) : bool :=
  match v with
  | VUndefined | VNull => false
  | VBool b => b
  | VNum n => negb (n =? 0)
  | VReal NaN => false
  | VReal _ => true
  | VStr s => negb (s =? EmptyString)%string
  | VArr _ | VObj _ => true
  end.

(** [n.toString()] for an integer [n] of the exact range (at most 2^53 in
    absolute value), where every integer is a number of its own and prints as
    its decimal digits: the range of clock readings, the counter and status
    codes. A property about a number a caller supplies carries the range as a
    hypothesis ([representable]). *)
Definition Number_toString (n : Z) : string :=
  NilZero.string_of_int (Z.to_int n).

(** [String.prototype.slice(0, n)]. *)
Fixpoint string_take (n : nat) (s : string) : string :=
  match n, s with
  | S k, String c rest => String c (string_take k rest)
  | _, _ => EmptyString
  end.

(** [String.prototype.slice(n)]. *)
Fixpoint string_drop (n : nat) (s : string) : string :=
  match n, s with
  | S k, String _ rest => string_drop k rest
  | _, _ => s
  end.

Fixpoint zeros (n : nat) : string :=
  match n with
  | O => EmptyString
  | S k => String "0" (zeros k)
  end.

(** Number::toString of the positive number s * 10^(n - k), steps 5 to 10:
    digits and zeros when the number is an integer below 10^21, a decimal
    point inside or in front of the digits down to 10^-7, and the exponent
    form beyond. *)
Definition Decimal_toString (s : positive) (n : Z) : string :=
  let ds := NilEmpty.string_of_uint (Pos.to_uint s) in
  let k := Z.of_nat (String.length ds) in
  if (k <=? n) && (n <=? 21) then ds ++ zeros (Z.to_nat (n - k))
  else if (0 <? n) && (n <=? 21) then
    string_take (Z.to_nat n) ds ++ "." ++ string_drop (Z.to_nat n) ds
  else if (-6 <? n) && (n <=? 0) then "0." ++ zeros (Z.to_nat (- n)) ++ ds
  else
    (if k =? 1 then ds else string_take 1 ds ++ "." ++ string_drop 1 ds)
    ++ "e" ++ (if n - 1 <? 0 then "-" else "+") ++ Number_toString (Z.abs (n - 1)).

(** Number::toString, radix 10. *)
Definition numeral_toString (x : numeral) : string :=
  match x with
  | NaN => "NaN"
  | Infinity negative => if negative then "-Infinity" else "Infinity"
  | Decimal negative s n =>
      (if negative then "-" else EmptyString) ++ Decimal_toString s n
  end.

(** [isFinite]. *)
Definition finite (x : numeral) : bool :=
  match x with
  | Decimal _ _ _ => true
  | _ => false
  end.

(** [Array.prototype.join] over already converted elements. *)
Fixpoint join (sep : string) (l : list string) : string :=
  match l with
  | [] => EmptyString
  | [x] => x
  | x :: rest => x ++ sep ++ join sep rest
  end.

(** The text [%s] puts into a message, in [util.format] and in [VError]:
    the language's string conversion of a primitive, and for arrays and
    objects the text of [Array.prototype.toString] and
    [Object.prototype.toString]. The client formats its own strings and
    numbers with it, and the fields of a decoded response, where it stands
    for responses none of whose objects has a property named [toString]. The
    conversion the language performs on an argument of a wrapper, in a
    template literal or a method call, which can raise, is [ToStringE]
    below. *)
Fixpoint ToString (v : value) : string :=
  match v with
  | VUndefined => "undefined"
  | VNull => "null"
  | VBool b => if b then "true" else "false"
  | VNum n => Number_toString n
  | VReal x => numeral_toString x
  | VStr s => s
  | VArr l =>
      join "," (map (fun x => match x with
                              | VUndefined | VNull => EmptyString
                              | _ => ToString x
                              end) l)
  | VObj _ => "[object Object]"
  end.

(** JavaScript exceptions the wrappers can raise. *)
Inductive exn : Type :=
| TypeError (msg : string).

(** The method call [v.slice(0, 3)]: strings and arrays have the method,
    every other value of the model raises. *)
Definition slice_0_3 (v : value) : exn + value :=
  match v with
  | VStr s => inr (VStr (string_take 3 s))
  | VArr l => inr (VArr (firstn 3 l))
  | VUndefined => inl (TypeError "Cannot read properties of undefined (reading 'slice')")
  | VNull => inl (TypeError "Cannot read properties of null (reading 'slice')")
  | _ => inl (TypeError "instrument.slice is not a function")
  end.

(** Own property lookup in a property list. *)
Fixpoint lookup (k : string) (ps : list (string * value)) : option value :=
  match ps with
  | [] => None
  | (k', v) :: rest => if (k' =? k)%string then Some v else lookup k rest
  end.

(** [o.k] for a property name [k] that is neither an index nor [length]:
    the own property of an object, [undefined] otherwise. *)
Definition get (o : value) (k : string) : value :=
  match o with
  | VObj ps => match lookup k ps with Some v => v | None => VUndefined end
  | _ => VUndefined
  end.

(** [o] has an own property [k]. *)
Definition has_own (k : string) (ps : list (string * value)) : bool :=
  match lookup k ps with
  | Some _ => true
  | None => false
  end.

(** The results of conversions made in turn: all of them, or the first
    exception. *)
Fixpoint all_or_first (l : list (exn + string)) : exn + list string :=
  match l with
  | [] => inr []
  | inl e :: _ => inl e
  | inr s :: rest =>
      match all_or_first rest with
      | inl e => inl e
      | inr ss => inr (s :: ss)
      end
  end.

(** The abstract operation ToString, as a template literal applies it. No
    value of the model is a function, so an object with an own [toString]
    property has no callable [toString], and its [valueOf], own or inherited,
    yields no primitive: the conversion raises a TypeError. Any other object
    prints through [Object.prototype.toString]; an array prints through
    [join], which converts its elements in turn and raises when one does. *)
Fixpoint ToStringE (v : value) : exn + string :=
  match v with
  | VUndefined => inr "undefined"
  | VNull => inr "null"
  | VBool b => inr (if b then "true" else "false")
  | VNum n => inr (Number_toString n)
  | VReal x => inr (numeral_toString x)
  | VStr s => inr s
  | VArr l =>
      match all_or_first (map (fun x => match x with
                                        | VUndefined | VNull => inr EmptyString
                                        | _ => ToStringE x
                                        end) l) with
      | inl e => inl e
      | inr ss => inr (join "," ss)
      end
  | VObj ps =>
      if has_own "toString" ps
      then inl (TypeError "Cannot convert object to primitive value")
      else inr "[object Object]"
  end.

(** The method call [v.toString()]: a TypeError on [null] and [undefined],
    and on an object whose own [toString] property is not a function;
    otherwise the method of the value's prototype, which for an array
    converts the elements. *)
Definition toString (v : value) : exn + string :=
  match v with
  | VUndefined => inl (TypeError "Cannot read properties of undefined (reading 'toString')")
  | VNull => inl (TypeError "Cannot read properties of null (reading 'toString')")
  | VObj ps =>
      if has_own "toString" ps
      then inl (TypeError "toString is not a function")
      else inr "[object Object]"
  | _ => ToStringE v
  end.

(** [v] converts to a string: neither [v] nor an element of the array [v],
    at any depth, is an object with an own [toString] property. *)
Fixpoint convertible (v : value) : bool :=
  match v with
  | VArr l => forallb convertible l
  | VObj ps => negb (has_own "toString" ps)
  | _ => true
  end.

(** The numbers [v] converts to a string from are JavaScript numbers as the
    model writes them: an integer of the exact range, or a numeral of at most
    15 digits without trailing zero, between 10^-301 and 10^300, which is the
    shortest that reads back as the double nearest to it. *)
Fixpoint representable (v : value) : bool :=
  match v with
  | VNum n => Z.abs n <=? 2 ^ 53
  | VReal (Decimal _ s n) =>
      negb (Z.pos s mod 10 =? 0) && (Z.pos s <? 10 ^ 15)
      && (-300 <=? n) && (n <=? 300)
  | VArr l => forallb representable l
  | _ => true
  end.

(** [o.k = v] on a property list, for a name [k] that is not an array index
    (JavaScript enumerates index-like names first): overwrite in place, or
    append. *)
Fixpoint set (k : string) (v : value) (ps : list (string * value))
  : list (string * value) :=
  match ps with
  | [] => [(k, v)]
  | (k', v') :: rest =>
      if (k' =? k)%string then (k, v) :: rest else (k', v') :: set k v rest
  end.

(** underscore's [_.isObject]: [typeof] is ['object'] and the value is not
    [null]; arrays are objects. *)
Definition isObject (v : value) : bool :=
  match v with
  | VArr _ | VObj _ => true
  | _ => false
  end.

(** underscore's [_.isEmpty]. *)
Definition isEmpty (v : value) : bool :=
  match v with
  | VStr s => (s =? EmptyString)%string
  | VArr l => match l with [] => true | _ => false end
  | VObj ps => match ps with [] => true | _ => false end
  | _ => true
  end.

(** *** JSON.stringify *)

Definition hex_digit (upper : bool) (d : N) : ascii :=
  if (d <? 10)%N then ascii_of_N (48 + d)
  else ascii_of_N ((if upper then 55 else 87) + d).

Definition hex2 (upper : bool) (n : N) : string :=
  String (hex_digit upper (n / 16)) (String (hex_digit upper (n mod 16)) EmptyString).

(** QuoteJSONString, one code unit. *)
Definition QuoteJSONChar (c : ascii) : string :=
  let n := N_of_ascii c in
  if (n =? 8)%N then "\b"
  else if (n =? 9)%N then "\t"
  else if (n =? 10)%N then "\n"
  else if (n =? 12)%N then "\f"
  else if (n =? 13)%N then "\r"
  else if (n =? 34)%N then String "\" (String dquote EmptyString)
  else if (n =? 92)%N then "\\"
  else if (n <? 32)%N then "\u00" ++ hex2 false n
  else String c EmptyString.

Fixpoint QuoteJSONChars (s : string) : string :=
  match s with
  | EmptyString => EmptyString
  | String c rest => QuoteJSONChar c ++ QuoteJSONChars rest
  end.

Definition QuoteJSONString (s : string) : string :=
  String dquote (QuoteJSONChars s ++ String dquote EmptyString).

(** [JSON.stringify(v)] with no replacer and no indentation; [None] is the
    result [undefined]. An [undefined] element of an array prints as [null],
    an [undefined] property of an object is left out. *)
Fixpoint JSON_stringify (v : value) : option string :=
  match v with
  | VUndefined => None
  | VNull => Some "null"
  | VBool b => Some (if b then "true" else "false")
  | VNum n => Some (Number_toString n)
  | VReal x => Some (if finite x then numeral_toString x else "null")
  | VStr s => Some (QuoteJSONString s)
  | VArr l =>
      Some ("[" ++ join "," (map (fun x => match JSON_stringify x with
                                           | Some s => s
                                           | None => "null"
                                           end) l) ++ "]")
  | VObj ps =>
      Some ("{" ++ join "," (flat_map
                               (fun kv => match JSON_stringify (snd kv) with
                                          | Some s => [QuoteJSONString (fst kv) ++ ":" ++ s]
                                          | None => []
                                          end) ps) ++ "}")
  end.

(** The value a JavaScript variable holds after [x = JSON.stringify(v)]. *)
Definition JSON_stringify_value (v : value) : value :=
  match JSON_stringify v with
  | Some s => VStr s
  | None => VUndefined
  end.

(** *** querystring.stringify *)

Definition is_unreserved (c : ascii) : bool :=
  let n := N_of_ascii c in
  ((48 <=? n) && (n <=? 57) || (65 <=? n) && (n <=? 90) || (97 <=? n) && (n <=? 122)
   || (n =? 45) || (n =? 95) || (n =? 46) || (n =? 33) || (n =? 126)
   || (n =? 42) || (n =? 39) || (n =? 40) || (n =? 41))%N.

(** UTF-8 of one code unit below 256. *)
Definition utf8_unit (c : ascii) : list N :=
  let n := N_of_ascii c in
  if (n <? 128)%N then [n] else [192 + n / 64; 128 + n mod 64]%N.

Definition percent (b : N) : string := "%" ++ hex2 true b.

Definition escape_char (c : ascii) : string :=
  if is_unreserved c then String c EmptyString
  else String.concat EmptyString (map percent (utf8_unit c)).

(** [querystring.escape]. *)
Fixpoint escape (s : string) : string :=
  match s with
  | EmptyString => EmptyString
  | String c rest => escape_char c ++ escape rest
  end.

Definition stringifyPrimitive (v : value) : string :=
  match v with
  | VStr s => s
  | VNum n => Number_toString n
  | VReal x => if finite x then numeral_toString x else EmptyString
  | VBool b => if b then "true" else "false"
  | _ => EmptyString
  end.

Definition query_fields (ps : list (string * value)) : list string :=
  flat_map (fun kv =>
              let ks := escape (fst kv) ++ "=" in
              match snd kv with
              | VArr l => map (fun x => ks ++ escape (stringifyPrimitive x)) l
              | v => [ks ++ escape (stringifyPrimitive v)]
              end) ps.

(** [Object.keys] of an array: its indices. *)
Definition indexed (l : list value) : list (string * value) :=
  combine (map (fun i => Number_toString (Z.of_nat i)) (seq 0 (List.length l))) l.

(** [querystring.stringify(obj)] with the default separators: one [k=v] per
    property, one per element for an array-valued property, joined by [&];
    the empty string for anything that is not an object. *)
Definition querystring_stringify (obj : value) : string :=
  match obj with
  | VObj ps => join "&" (query_fields ps)
  | VArr l => join "&" (query_fields (indexed l))
  | _ => EmptyString
  end.

End JS.

Import JS.

(* ===================================================================== *)
(** ** Byte buffers: UTF-8 and base64                                     *)
(* ===================================================================== *)

Module Buffer.

Definition byte_of_N (n : N) : Byte.byte := byte_of_ascii (ascii_of_N n).

(** [Buffer.from(s)]: the UTF-8 encoding of a string. *)
Definition from (s : string) : list Byte.byte :=
  flat_map (fun c => map byte_of_N (utf8_unit c)) (list_ascii_of_string s).

Definition alphabet : string :=
  "ABCDEFGHIJKLMNOPQRSTUVWXYZabcdefghijklmnopqrstuvwxyz0123456789+/".

Definition sextet (n : N) : ascii :=
  match String.get (N.to_nat (n mod 64)) alphabet with
  | Some c => c
  | None => "="%char
  end.

Definition N_of_byte (b : Byte.byte) : N := N_of_ascii (ascii_of_byte b).

(** [buf.toString('base64')], as [digest('base64')] renders a digest. *)
Fixpoint base64 (bs : list Byte.byte) : string :=
  match bs with
  | [] => EmptyString
  | [a] =>
      let x := N_of_byte a in
      String (sextet (x / 4)) (String (sextet (x mod 4 * 16)) "==")
  | [a; b] =>
      let x := N_of_byte a in
      let y := N_of_byte b in
      String (sextet (x / 4))
        (String (sextet (x mod 4 * 16 + y / 16))
           (String (sextet (y mod 16 * 4)) "="))
  | a :: b :: c :: rest =>
      let x := N_of_byte a in
      let y := N_of_byte b in
      let z := N_of_byte c in
      String (sextet (x / 4))
        (String (sextet (x mod 4 * 16 + y / 16))
           (String (sextet (y mod 16 * 4 + z / 64))
              (String (sextet (z mod 64)) (base64 rest))))
  end.

End Buffer.

(** Sequencing of computations that may raise. *)
Definition ret {A : Type} (x : A) : exn + A := inr x.

Definition bind {A B : Type} (m : exn + A) (k : A -> exn + B) : exn + B :=
  match m with
  | inl e => inl e
  | inr x => k x
  end.

Notation "x <- m ;; k" := (bind m (fun x => k))
  (at level 61, m at next level, right associativity).

(* ===================================================================== *)
(** ** The client: settings, requests, errors                            *)
(* ===================================================================== *)

(** The [settings] object handed to the constructor; [None] is an absent
    (undefined) property. *)
Record settings : Type := {
  s_key : option string;
  s_secret : option string;
  s_serverV1 : option string;
  s_serverV2 : option string;
  s_timeout : option Z
}.

(** The fields the constructor stores on [this]. *)
Record ItBit : Type := {
  key : option string;
  secret : option string;
  serverV1 : string;
  serverV2 : string;
  timeout : Z;
  nonce : Z
}.

(** [x || d] on an optional string and on an optional number. *)
Definition or_string (x : option string) (d : string) : string :=
  match x with
  | Some s => if (s =? EmptyString)%string then d else s
  | None => d
  end.

Definition or_number (x : option Z) (d : Z) : Z :=
  match x with
  | Some n => if n =? 0 then d else n
  | None => d
  end.

(** The constructor body, [now] being the reading of [new Date().getTime()]. *)
Definition construct (st : settings) (now : Z) : ItBit :=
  {| key := s_key st;
     secret := s_secret st;
     serverV1 := or_string (s_serverV1 st) "https://api.itbit.com/v1";
     serverV2 := or_string (s_serverV2 st) "https://www.itbit.com/api/v2";
     timeout := or_number (s_timeout st) 20000;
     nonce := now |}.

(** The [options] object handed to [request]. *)
Record options : Type := {
  method : string;
  uri : string;
  headers : list (string * value);
  json : value;
  req_timeout : option Z
}.

(** What [request] hands to its callback: [(err, res, body)]. [err] carries
    the message of the transport error, [statusCode] is [res.statusCode]. *)
Record response : Type := {
  err : option string;
  statusCode : Z;
  body : value
}.

(** The network: the answer [request] gets for the options it is given. *)
Definition transport : Type := options -> response.

(** The failures the client reports, by the [new VError] site that builds
    them. *)
Inductive ErrorKind : Type :=
| CredentialsMissing
| InvalidVersion
| Transport
| EmptyResponse
| UnparseableHTML
| UnparseableBody
| ApiError
| HttpStatus.

(** A [VError]: its [name] (the default, or what the classifier assigns),
    its message and the cause it wraps. *)
Record VError : Type := {
  kind : ErrorKind;
  name : value;
  message : string;
  cause : option string
}.

Definition mkError (k : ErrorKind) (msg : string) : VError :=
  {| kind := k; name := VStr "VError"; message := msg; cause := None |}.

Definition with_name (e : VError) (n : value) : VError :=
  {| kind := kind e; name := n; message := message e; cause := cause e |}.

(** One call of the caller's callback: [callback(error, body)]. *)
Inductive completion : Type :=
| Callback (error : option VError) (body : value).

(** What a call of the pipeline leaves behind: the client object, the requests
    handed to the network, and the callback invocation. *)
Record outcome : Type := {
  after : ItBit;
  dispatched : list options;
  delivered : completion
}.

Definition nonempty (s : string) : bool := negb (s =? EmptyString)%string.

Definition present (x : option string) : bool :=
  match x with
  | Some s => nonempty s
  | None => false
  end.

(** The primitives the pipeline takes from its libraries:
    [crypto.createHash('sha256')] and [crypto.createHmac('sha512', key)] as
    functions on byte buffers, and cheerio's [$('body').text()] of a loaded
    response body. *)
Class Primitives : Type := {
  sha256 : list Byte.byte -> list Byte.byte;
  hmac_sha512 : list Byte.byte -> list Byte.byte -> list Byte.byte;
  body_text : value -> string
}.

Module Pipeline.
Section WithPrimitives.

Context {prim : Primitives}.

(** *** executeRequest *)

Definition requestDesc (o : options) : string :=
  if (method o =? "GET")%string then
    method o ++ " request to url " ++ uri o
  else
    method o ++ " request to url " ++ uri o
      ++ " with nonce " ++ ToString (get (VObj (headers o)) "X-Auth-Nonce")
      ++ " and data " ++ ToString (JSON_stringify_value (json o)).

Definition status_ok (c : Z) : bool := (c =? 200) || (c =? 201) || (c =? 202).

(** The body of the callback given to [request]: the value of [error] when
    [callback(error, body)] is reached. *)
Definition classify (desc : string) (r : response) : option VError :=
  let functionName := "ItBit.executeRequest()" in
  match err r with
  | Some e =>
      Some {| kind := Transport; name := VStr "VError";
              message := functionName ++ " failed " ++ desc ++ ": " ++ e;
              cause := Some e |}
  | None =>
      if negb (truthy (body r)) then
        Some (mkError EmptyResponse
                (functionName ++ " failed " ++ desc ++ ". Not response from server"))
      else if negb (isObject (body r)) then
        let responseBody := body_text (body r) in
        if nonempty responseBody then
          Some (mkError UnparseableHTML
                  (functionName ++ " could not parse response body from " ++ desc
                     ++ String "010" "Response body: " ++ responseBody))
        else
          Some (mkError UnparseableBody
                  (functionName ++ " could not parse json or HTML response from " ++ desc))
      else if truthy (body r) && truthy (get (body r) "code") then
        Some (with_name
                (mkError ApiError
                   (functionName ++ " failed " ++ desc ++ ". Error code "
                      ++ ToString (get (body r) "code") ++ ", description: "
                      ++ ToString (get (body r) "description")))
                (get (body r) "code"))
      else if truthy (body r) && truthy (get (body r) "error") then
        Some (with_name
                (mkError ApiError
                   (functionName ++ " failed " ++ desc ++ ". Error "
                      ++ ToString (get (body r) "error")))
                (get (body r) "error"))
      else if negb (status_ok (statusCode r)) then
        Some (with_name
                (mkError HttpStatus
                   (functionName ++ " failed " ++ desc ++ ". Response status code "
                      ++ Number_toString (statusCode r) ++ ", response body "
                      ++ ToString (body r)))
                (VNum (statusCode r)))
      else None
  end.

Definition executeRequest (self : ItBit) (o : options) (net : transport) : outcome :=
  let r := net o in
  {| after := self;
     dispatched := [o];
     delivered := Callback (classify (requestDesc o) r) (body r) |}.

(** *** makePublicRequest *)

Definition makePublicRequest (self : ItBit) (version path : string) (args : value)
    (net : transport) : outcome :=
  let functionName := "ItBit.makePublicRequest()" in
  let params := querystring_stringify args in
  let path := if nonempty params then path ++ "?" ++ params else path in
  let run server :=
    executeRequest self
      {| method := "GET";
         uri := server ++ path;
         headers := [("User-Agent", VStr "itBit node.js client");
                     ("Content-type", VStr "application/x-www-form-urlencoded")];
         json := args;
         req_timeout := None |} net in
  if (version =? "v1")%string then run (serverV1 self)
  else if (version =? "v2")%string then run (serverV2 self)
  else
    {| after := self;
       dispatched := [];
       delivered :=
         Callback (Some (mkError InvalidVersion
                           (functionName ++ " version " ++ version
                              ++ " needs to be either v1 or v2")))
                  VUndefined |}.

(** *** makePrivateRequest *)

Definition is_body_method (m : string) : bool :=
  ((m =? "POST") || (m =? "PUT"))%string.

(** The local [uri] once the post data has been computed. *)
Definition request_uri (self : ItBit) (m path : string) (args : value) : string :=
  let uri := serverV1 self ++ path in
  if is_body_method m then uri
  else if (m =? "GET")%string && negb (isEmpty args) then
    uri ++ "?" ++ querystring_stringify args
  else uri.

(** The local [postData]. *)
Definition postData (m : string) (args : value) : value :=
  if is_body_method m then JSON_stringify_value args else VStr EmptyString.

(** The local [message]:
    [nonce + JSON.stringify([method, uri, postData, nonce.toString(), timestamp.toString()])]. *)
Definition canonical_message (m uri : string) (post : value) (nonce timestamp : Z)
  : string :=
  Number_toString nonce
    ++ ToString (JSON_stringify_value
                   (VArr [VStr m; VStr uri; post;
                          VStr (Number_toString nonce);
                          VStr (Number_toString timestamp)])).

(** The local [signature]. *)
Definition sign (secret uri message : string) : string :=
  let hashBuffer := sha256 (Buffer.from message) in
  let bufferToHash := (Buffer.from uri ++ hashBuffer)%list in
  Buffer.base64 (hmac_sha512 (Buffer.from secret) bufferToHash).

(** [self.nonce++]: the counter after the read. *)
Definition bump (self : ItBit) : ItBit :=
  {| key := key self; secret := secret self;
     serverV1 := serverV1 self; serverV2 := serverV2 self;
     timeout := timeout self; nonce := nonce self + 1 |}.

(** The credentials when [!self.key || !self.secret] is false. *)
Definition credentials (self : ItBit) : option (string * string) :=
  match key self, secret self with
  | Some k, Some s => if nonempty k && nonempty s then Some (k, s) else None
  | _, _ => None
  end.

Definition makePrivateRequest (self : ItBit) (m path : string) (args : value)
    (now : Z) (net : transport) : outcome :=
  let functionName := "ItBit.makePrivateRequest()" in
  match credentials self with
  | None =>
      {| after := self;
         dispatched := [];
         delivered :=
           Callback (Some (mkError CredentialsMissing
                             (functionName
                                ++ " must provide key and secret to make a private API request.")))
                    VUndefined |}
  | Some (k, s) =>
      let uri := request_uri self m path args in
      let post := postData m args in
      let timestamp := now in
      let nonce := nonce self in
      let self := bump self in
      let message := canonical_message m uri post nonce timestamp in
      let signature := sign s uri message in
      executeRequest self
        {| method := m;
           uri := uri;
           headers := [("User-Agent", VStr "itBit node.js client");
                       ("Authorization", VStr (k ++ ":" ++ signature));
                       ("X-Auth-Timestamp", VNum timestamp);
                       ("X-Auth-Nonce", VNum nonce)];
           json := args;
           req_timeout := Some (timeout self) |} net
  end.

(** *** The endpoint wrappers *)

(** What a wrapper hands to the pipeline. *)
Inductive call : Type :=
| Public (version path : string) (args : value)
| Private (m path : string) (args : value).

(** The methods of [ItBit.prototype], with their arguments. *)
Inductive operation : Type :=
| getOrderBook (tickerSymbol : value)
| getTicker (tickerSymbol : value)
| getTrades (tickerSymbol since : value)
| getWallets (userId : value)
| getWallet (walletId : value)
| getOrders (walletId instrument status : value)
| getOrder (walletId id : value)
| addOrder (walletId side type amount price instrument metadata
              clientOrderIdentifier : value)
| cancelOrder (walletId id : value)
| getWalletTrades (walletId params : value)
| getFundingHistory (walletId params : value)
| cryptocurrency_withdrawals (walletId currency amount address : value)
| cryptocurrency_deposits (walletId currency : value).

(** The [args] object [addOrder] builds; the property values are evaluated
    in the order of the literal, so the first failing conversion raises. *)
Definition addOrder_args (side type amount price instrument metadata
                            clientOrderIdentifier : value) : exn + value :=
  currency <- slice_0_3 instrument ;;
  amount' <- toString amount ;;
  price' <- toString price ;;
  let args := [("side", side); ("type", type); ("currency", currency);
               ("amount", VStr amount'); ("price", VStr price');
               ("instrument", instrument)] in
  let args := if truthy metadata then set "metadata" metadata args else args in
  let args := if truthy clientOrderIdentifier
              then set "clientOrderIdentifier" clientOrderIdentifier args
              else args in
  ret (VObj args).

(** [since || 0]. *)
Definition or_zero (since : value) : value :=
  if truthy since then since else VNum 0.

(** The body of each wrapper: the pipeline call it makes, or the exception
    raised while its arguments are evaluated; the template literal of the
    path converts the values it interpolates, from left to right. *)
Definition marshal (op : operation) : exn + call :=
  match op with
  | getOrderBook t =>
      t' <- ToStringE t ;;
      ret (Public "v1" ("/markets/" ++ t' ++ "/order_book") (VObj []))
  | getTicker t =>
      t' <- ToStringE t ;;
      ret (Public "v1" ("/markets/" ++ t' ++ "/ticker") (VObj []))
  | getTrades t since =>
      t' <- ToStringE t ;;
      since' <- ToStringE (or_zero since) ;;
      ret (Public "v1" ("/markets/" ++ t' ++ "/trades?since=" ++ since') (VObj []))
  | getWallets userId =>
      ret (Private "GET" "/wallets" (VObj [("userId", userId)]))
  | getWallet w =>
      w' <- ToStringE w ;;
      ret (Private "GET" ("/wallets/" ++ w') (VObj []))
  | getOrders w instrument status =>
      w' <- ToStringE w ;;
      ret (Private "GET" ("/wallets/" ++ w' ++ "/orders")
             (VObj [("instrument", instrument); ("status", status)]))
  | getOrder w id =>
      w' <- ToStringE w ;;
      id' <- ToStringE id ;;
      ret (Private "GET" ("/wallets/" ++ w' ++ "/orders/" ++ id') (VObj []))
  | addOrder w side type amount price instrument metadata clientOrderIdentifier =>
      args <- addOrder_args side type amount price instrument metadata
                clientOrderIdentifier ;;
      w' <- ToStringE w ;;
      ret (Private "POST" ("/wallets/" ++ w' ++ "/orders") args)
  | cancelOrder w id =>
      w' <- ToStringE w ;;
      id' <- ToStringE id ;;
      ret (Private "DELETE" ("/wallets/" ++ w' ++ "/orders/" ++ id') (VObj []))
  | getWalletTrades w params =>
      w' <- ToStringE w ;;
      ret (Private "GET" ("/wallets/" ++ w' ++ "/trades") params)
  | getFundingHistory w params =>
      w' <- ToStringE w ;;
      ret (Private "GET" ("/wallets/" ++ w' ++ "/funding_history") params)
  | cryptocurrency_withdrawals w currency amount address =>
      w' <- ToStringE w ;;
      ret (Private "POST" ("/wallets/" ++ w' ++ "/cryptocurrency_withdrawals")
             (VObj [("currency", currency); ("amount", amount); ("address", address)]))
  | cryptocurrency_deposits w currency =>
      w' <- ToStringE w ;;
      ret (Private "POST" ("/wallets/" ++ w' ++ "/cryptocurrency_deposits")
             (VObj [("currency", currency)]))
  end.

(** The pipeline call on the client object [self] refers to. *)
Definition perform (self : ItBit) (c : call) (now : Z) (net : transport) : outcome :=
  match c with
  | Public version path args => makePublicRequest self version path args net
  | Private m path args => makePrivateRequest self m path args now net
  end.

(** *** The module-level variable [self]

    [let self;] is one variable of the module; the constructor assigns
    [self = this], and every request function reads the client through it.
    [heap] holds the instances created so far, [self] the reference the
    variable holds. *)
Record runtime : Type := {
  heap : list ItBit;
  self : option nat
}.

(** The module once loaded, before any [new ItBit]. *)
Definition loaded : runtime := {| heap := []; self := None |}.

(** [new ItBit(settings)]: the new instance and the runtime it leaves. *)
Definition new_ItBit (st : settings) (now : Z) (rt : runtime) : runtime * nat :=
  let this := List.length (heap rt) in
  ({| heap := (heap rt ++ [construct st now])%list; self := Some this |}, this).

Definition deref (rt : runtime) : option ItBit :=
  match self rt with
  | Some r => nth_error (heap rt) r
  | None => None
  end.

Fixpoint update {A : Type} (i : nat) (x : A) (l : list A) : list A :=
  match l, i with
  | [], _ => []
  | _ :: rest, O => x :: rest
  | y :: rest, S j => y :: update j x rest
  end.

Definition store (rt : runtime) (obj : ItBit) : runtime :=
  match self rt with
  | Some r => {| heap := update r obj (heap rt); self := self rt |}
  | None => rt
  end.

(** What the caller of a method observes. *)
Inductive observation : Type :=
| Created (ref : nat)
| Threw (e : exn)
| Returned (sent : list options) (cb : completion).

(** The method call [this.op(...)]: no wrapper reads [this]. *)
Definition invoke (rt : runtime) (this : nat) (op : operation) (now : Z)
    (net : transport) : runtime * observation :=
  match marshal op with
  | inl e => (rt, Threw e)
  | inr c =>
      match deref rt with
      | None =>
          (rt, Threw (TypeError "Cannot read properties of undefined"))
      | Some obj =>
          let o := perform obj c now net in
          (store rt (after o), Returned (dispatched o) (delivered o))
      end
  end.

(** A program using the module: constructions and method calls in order. *)
Inductive event : Type :=
| New (st : settings) (now : Z)
| Call (this : nat) (op : operation) (now : Z) (net : transport).

Definition step (rt : runtime) (ev : event) : runtime * observation :=
  match ev with
  | New st now => let '(rt', ref) := new_ItBit st now rt in (rt', Created ref)
  | Call this op now net => invoke rt this op now net
  end.

Fixpoint run (rt : runtime) (evs : list event) : runtime * list observation :=
  match evs with
  | [] => (rt, [])
  | ev :: rest =>
      let '(rt1, ob) := step rt ev in
      let '(rt2, obs) := run rt1 rest in
      (rt2, ob :: obs)
  end.

End WithPrimitives.
End Pipeline.

Import Pipeline.

(* ===================================================================== *)
(** ** Observers, the spec's vocabulary, and fixtures                    *)
(* ===================================================================== *)

(** The requests a method call handed to the network. *)
Definition sent_of (ob : observation) : list options :=
  match ob with
  | Returned sent _ => sent
  | _ => []
  end.

(** The value of the [X-Auth-Nonce] header of a request, when it has one. *)
Definition nonce_of (o : options) : list Z :=
  match get (VObj (headers o)) "X-Auth-Nonce" with
  | VNum n => [n]
  | _ => []
  end.

(** The nonces that went out during a run, in order. *)
Definition nonces_of (obs : list observation) : list Z :=
  flat_map (fun ob => flat_map nonce_of (sent_of ob)) obs.

(** A method call whose wrapper reaches [makePrivateRequest]. *)
Definition is_private_call (ev : event) : bool :=
  match ev with
  | Call _ op _ _ =>
      match marshal op with
      | inr (Private _ _ _) => true
      | _ => false
      end
  | New _ _ => false
  end.

(** The spec's "body contains a field [k]": the decoded object has the
    property, whatever its value. *)
Definition has_field (k : string) (b : value) : bool :=
  match b with
  | VObj ps => match lookup k ps with Some _ => true | None => false end
  | _ => false
  end.

(** The spec's "structured mapping": a decoded JSON object, not an array. *)
Definition is_mapping (b : value) : bool :=
  match b with
  | VObj _ => true
  | _ => false
  end.

Module Fixtures.

(** Stand-ins for the primitives, enough to run the pipeline on examples:
    the hash returns its input, the MAC prepends the key, and the text of a
    body is the body when it is a string. *)
Definition toy : Primitives :=
  {| sha256 := fun b => b;
     hmac_sha512 := fun k b => (k ++ b)%list;
     body_text := fun v => match v with VStr s => s | _ => EmptyString end |}.

Definition with_credentials : settings :=
  {| s_key := Some "k"; s_secret := Some "s";
     s_serverV1 := None; s_serverV2 := None; s_timeout := None |}.

Definition without_credentials : settings :=
  {| s_key := None; s_secret := None;
     s_serverV1 := None; s_serverV2 := None; s_timeout := None |}.

(** A server that answers every request with the same status and body. *)
Definition answers (status : Z) (b : value) : transport :=
  fun _ => {| err := None; statusCode := status; body := b |}.

(** A network on which every request fails. *)
Definition unreachable : transport :=
  fun _ => {| err := Some "ETIMEDOUT"; statusCode := 0; body := VUndefined |}.

(** The client built from [with_credentials] when the clock reads 1000. *)
Definition client : ItBit := construct with_credentials 1000.

(** The module after [new ItBit(with_credentials)] at clock reading 1000. *)
Definition started : runtime := fst (new_ItBit with_credentials 1000 loaded).

(** The module after [new ItBit(without_credentials)] at clock reading 1000. *)
Definition started_bare : runtime := fst (new_ItBit without_credentials 1000 loaded).

(** A public request for a ticker. *)
Definition ticker_request : options :=
  {| method := "GET";
     uri := "https://api.itbit.com/v1/markets/XBTUSD/ticker";
     headers := [("User-Agent", VStr "itBit node.js client");
                 ("Content-type", VStr "application/x-www-form-urlencoded")];
     json := VObj [];
     req_timeout := None |}.

(** [{"code":"ERR001","description":"Invalid nonce"}] *)
Definition invalid_nonce : value :=
  VObj [("code", VStr "ERR001"); ("description", VStr "Invalid nonce")].

End Fixtures.

(* ===================================================================== *)
(** ** Vocabulary of the further properties                               *)
(* ===================================================================== *)

(** The number of [new ItBit] in a program. *)
Definition constructions (evs : list event) : nat :=
  List.length (filter (fun ev => match ev with New _ _ => true | _ => false end) evs).

(** The number of method calls of a program that reach [makePrivateRequest]. *)
Definition private_calls (evs : list event) : nat :=
  List.length (filter is_private_call evs).

(** The values a wrapper interpolates into its path, in order. *)
Definition interpolated (op : operation) : list value :=
  match op with
  | getOrderBook t | getTicker t => [t]
  | getTrades t since => [t; or_zero since]
  | getWallets _ => []
  | getWallet w | getOrders w _ _ | getWalletTrades w _ | getFundingHistory w _
  | cryptocurrency_withdrawals w _ _ _ | cryptocurrency_deposits w _
  | addOrder w _ _ _ _ _ _ _ => [w]
  | getOrder w id | cancelOrder w id => [w; id]
  end.

(** [null] or [undefined]: the values a method call raises on. *)
Definition nullish (v : value) : bool :=
  match v with
  | VUndefined | VNull => true
  | _ => false
  end.

(** The values that have a [slice] method. *)
Definition has_slice (v : value) : bool :=
  match v with
  | VStr _ | VArr _ => true
  | _ => false
  end.

(** [x] occurs in [s]. *)
Definition occurs_in (x s : string) : Prop :=
  exists pre post, s = pre ++ x ++ post.

(** Reading a canonical message back, to tell two messages apart: the value
    of a hexadecimal digit, the character behind a short escape, the text of
    a JSON string literal up to its closing quote, and the text behind the
    first opening bracket. *)
Definition hex_value (c : ascii) : N :=
  let n := N_of_ascii c in
  if (n <? 58)%N then n - 48 else n - 87.

Definition short_escape (c : ascii) : option ascii :=
  let n := N_of_ascii c in
  if (n =? 98)%N then Some (ascii_of_N 8)
  else if (n =? 116)%N then Some (ascii_of_N 9)
  else if (n =? 110)%N then Some (ascii_of_N 10)
  else if (n =? 102)%N then Some (ascii_of_N 12)
  else if (n =? 114)%N then Some (ascii_of_N 13)
  else if (n =? 34)%N then Some dquote
  else if (n =? 92)%N then Some "\"%char
  else None.

Definition push (c : ascii) (r : option (string * string)) : option (string * string) :=
  match r with
  | Some (t, rest) => Some (String c t, rest)
  | None => None
  end.

Fixpoint read_literal (s : string) : option (string * string) :=
  match s with
  | EmptyString => None
  | String c rest =>
      if (N_of_ascii c =? 34)%N then Some (EmptyString, rest)
      else if (N_of_ascii c =? 92)%N then
        match rest with
        | String e rest1 =>
            if (N_of_ascii e =? 117)%N then
              match rest1 with
              | String _ (String _ (String h1 (String h2 rest2))) =>
                  push (ascii_of_N (16 * hex_value h1 + hex_value h2))
                    (read_literal rest2)
              | _ => None
              end
            else
              match short_escape e with
              | Some ch => push ch (read_literal rest1)
              | None => None
              end
        | EmptyString => None
        end
      else push c (read_literal rest)
  end.

Fixpoint after_bracket (s : string) : option string :=
  match s with
  | EmptyString => None
  | String c rest => if (N_of_ascii c =? 91)%N then Some rest else after_bracket rest
  end.

(* ===================================================================== *)
(** ** Properties of the pipeline                                         *)
(* ===================================================================== *)

(** Case analysis on the conversions a wrapper performs. *)
Ltac open_marshal H :=
  cbn [marshal] in H; unfold ret, bind in H;
  repeat match type of H with
         | context [ToStringE ?v] =>
             destruct (ToStringE v) eqn:?; try discriminate
         | context [addOrder_args ?a ?b ?c ?d ?e ?f ?g] =>
             destruct (addOrder_args a b c d e f g) eqn:?; try discriminate
         end.

Section Properties.

Context {prim : Primitives}.

(** *** The canonical message *)

Lemma canonical_message_string_body (m u b : string) (n t : Z) :
  canonical_message m u (VStr b) n t
  = Number_toString n
      ++ "[" ++ (QuoteJSONString m ++ "," ++ QuoteJSONString u ++ ","
                 ++ QuoteJSONString b ++ ","
                 ++ QuoteJSONString (Number_toString n) ++ ","
                 ++ QuoteJSONString (Number_toString t)) ++ "]".
Proof. reflexivity. Qed.

Lemma addOrder_args_object side type amount price instrument metadata coid a :
  addOrder_args side type amount price instrument metadata coid = inr a ->
  exists ps, a = VObj ps.
Proof.
  unfold addOrder_args, bind, ret.
  destruct (slice_0_3 instrument); [discriminate |].
  destruct (toString amount); [discriminate |].
  destruct (toString price); [discriminate |].
  intros H. inversion H. eauto.
Qed.

Lemma postData_object (m : string) (ps : list (string * value)) :
  exists b, postData m (VObj ps) = VStr b.
Proof.
  unfold postData. destruct (is_body_method m); [| eauto].
  unfold JSON_stringify_value. cbn [JSON_stringify]. eauto.
Qed.

(** Every wrapper that reaches the private pipeline signs a string body. *)
Lemma postData_of_wrapper (op : operation) (m path : string) (args : value) :
  marshal op = inr (Private m path args) ->
  exists b, postData m args = VStr b.
Proof.
  intros H. destruct op; open_marshal H; inversion H; subst;
    try solve [apply postData_object | eexists; reflexivity].
  match goal with
  | E : addOrder_args _ _ _ _ _ _ _ = inr _ |- _ =>
      destruct (addOrder_args_object _ _ _ _ _ _ _ _ E) as [ps ->]
  end.
  apply postData_object.
Qed.

(** *** Credentials and dispatch *)

Lemma credentials_present (self : ItBit) (k s : string) :
  credentials self = Some (k, s) <->
  key self = Some k /\ secret self = Some s
  /\ nonempty k = true /\ nonempty s = true.
Proof.
  unfold credentials. split.
  - destruct (key self) as [k' |], (secret self) as [s' |]; try discriminate.
    destruct (nonempty k') eqn:Ek, (nonempty s') eqn:Es; cbn [andb];
      try discriminate.
    intros H. inversion H; subst. auto.
  - intros (Hk & Hs & Hk' & Hs'). rewrite Hk, Hs, Hk', Hs'. reflexivity.
Qed.

Lemma credentials_missing (self : ItBit) :
  credentials self = None <->
  present (key self) = false \/ present (secret self) = false.
Proof.
  unfold credentials, present.
  destruct (key self) as [k |], (secret self) as [s |]; cbn;
    try (split; [auto | reflexivity]).
  destruct (nonempty k), (nonempty s); cbn; split; auto;
    try discriminate; intros [H | H]; discriminate.
Qed.

(** With credentials, [makePrivateRequest] reads the counter, advances it and
    hands exactly one signed request to [executeRequest]. *)
Lemma makePrivateRequest_signed (self : ItBit) (k s m path : string)
    (args : value) (now : Z) (net : transport) :
  credentials self = Some (k, s) ->
  makePrivateRequest self m path args now net
  = executeRequest (bump self)
      {| method := m;
         uri := request_uri self m path args;
         headers :=
           [("User-Agent", VStr "itBit node.js client");
            ("Authorization",
             VStr (k ++ ":" ++ sign s (request_uri self m path args)
                                  (canonical_message m (request_uri self m path args)
                                     (postData m args) (nonce self) now)));
            ("X-Auth-Timestamp", VNum now);
            ("X-Auth-Nonce", VNum (nonce self))];
         json := args;
         req_timeout := Some (timeout self) |} net.
Proof. intros H. unfold makePrivateRequest. rewrite H. reflexivity. Qed.

(** C1. The message signed for a private request is the nonce in decimal
    followed by the JSON array [method, uri, body, nonce, timestamp], in that
    order, the five elements being JSON strings: method, uri and body as they
    are, nonce and timestamp in decimal. The request that goes out carries the
    signature of exactly that message. The message mentions nothing but these
    five values, so equal inputs give the same bytes. *)
Theorem canonical_message_of_private_request
    (op : operation) (m path : string) (args : value)
    (self : ItBit) (k s : string) (now : Z) (net : transport) :
  marshal op = inr (Private m path args) ->
  credentials self = Some (k, s) ->
  exists (o : options) (b : string),
    dispatched (makePrivateRequest self m path args now net) = [o]
    /\ method o = m
    /\ postData m args = VStr b
    /\ canonical_message m (uri o) (postData m args) (nonce self) now
       = Number_toString (nonce self)
           ++ "[" ++ (QuoteJSONString m ++ ","
                      ++ QuoteJSONString (uri o) ++ ","
                      ++ QuoteJSONString b ++ ","
                      ++ QuoteJSONString (Number_toString (nonce self)) ++ ","
                      ++ QuoteJSONString (Number_toString now)) ++ "]"
    /\ get (VObj (headers o)) "Authorization"
       = VStr (k ++ ":" ++ sign s (uri o)
                             (canonical_message m (uri o) (postData m args)
                                (nonce self) now)).
Proof.
  intros Hop Hcred.
  destruct (postData_of_wrapper _ _ _ _ Hop) as [b Hb].
  rewrite (makePrivateRequest_signed _ _ _ _ _ _ _ _ Hcred).
  eexists. exists b. cbn [executeRequest dispatched method uri].
  repeat split; try exact Hb.
  rewrite Hb. apply canonical_message_string_body.
Qed.

(** *** The signature *)

(** C2. The signature sent with a private request is
    base64(HMAC-SHA512(secret, utf8(uri) ++ SHA256(message))): the digest of
    the canonical message, the bytes of the request's URI put in front of it,
    the MAC of the concatenation keyed with the secret, in base64. It is the
    value of the [Authorization] header after the key and a colon, and a
    function of message, URI and secret alone. *)
Theorem signature_of_private_request
    (self : ItBit) (k s m path : string) (args : value) (now : Z)
    (net : transport) :
  credentials self = Some (k, s) ->
  exists o : options,
    dispatched (makePrivateRequest self m path args now net) = [o]
    /\ secret self = Some s
    /\ uri o = request_uri self m path args
    /\ get (VObj (headers o)) "Authorization"
       = VStr (k ++ ":"
                 ++ Buffer.base64
                      (hmac_sha512 (Buffer.from s)
                         (Buffer.from (uri o)
                            ++ sha256 (Buffer.from
                                         (canonical_message m (uri o)
                                            (postData m args) (nonce self) now)))%list))
    /\ forall secret' uri' message',
         sign secret' uri' message'
         = Buffer.base64
             (hmac_sha512 (Buffer.from secret')
                (Buffer.from uri' ++ sha256 (Buffer.from message'))%list).
Proof.
  intros Hcred.
  rewrite (makePrivateRequest_signed _ _ _ _ _ _ _ _ Hcred).
  eexists. cbn [executeRequest dispatched uri].
  repeat split.
  apply credentials_present in Hcred. tauto.
Qed.

(** *** The signed body *)

Lemma is_body_method_spec (m : string) :
  is_body_method m = true <-> m = "POST" \/ m = "PUT".
Proof.
  unfold is_body_method. rewrite orb_true_iff, !String.eqb_eq. tauto.
Qed.

(** C6, as the code has it. The signed body is the compact JSON encoding of
    the arguments for POST and PUT, and the empty string for every other
    method, GET and DELETE included; a GET with non-empty arguments carries
    them as a query string appended to the URI instead. The request that goes
    out has that URI and the signature of the message built on that body. *)
Theorem signed_body_by_method (self : ItBit) (m path : string) (args : value) :
  (m = "POST" \/ m = "PUT" ->
     postData m args = JSON_stringify_value args
     /\ request_uri self m path args = serverV1 self ++ path)
  /\ (m <> "POST" /\ m <> "PUT" -> postData m args = VStr EmptyString)
  /\ (m = "GET" -> isEmpty args = false ->
        request_uri self m path args
        = (serverV1 self ++ path) ++ "?" ++ querystring_stringify args)
  /\ (m = "GET" -> isEmpty args = true ->
        request_uri self m path args = serverV1 self ++ path)
  /\ (m = "DELETE" ->
        postData m args = VStr EmptyString
        /\ request_uri self m path args = serverV1 self ++ path)
  /\ (forall k s now net,
        credentials self = Some (k, s) ->
        exists o,
          dispatched (makePrivateRequest self m path args now net) = [o]
          /\ uri o = request_uri self m path args
          /\ get (VObj (headers o)) "Authorization"
             = VStr (k ++ ":" ++ sign s (uri o)
                                   (canonical_message m (uri o) (postData m args)
                                      (nonce self) now))).
Proof.
  repeat match goal with |- _ /\ _ => split end; unfold postData, request_uri.
  - intros H. apply is_body_method_spec in H. rewrite H. split; reflexivity.
  - intros [H1 H2]. destruct (is_body_method m) eqn:E; [| reflexivity].
    apply is_body_method_spec in E. tauto.
  - intros -> H. cbn. now rewrite H.
  - intros -> H. cbn. now rewrite H.
  - intros ->. split; reflexivity.
  - intros k s now net H.
    rewrite (makePrivateRequest_signed _ _ _ _ _ _ _ _ H).
    eexists. repeat split.
Qed.

(** *** The response classifier *)

Lemma isObject_truthy (b : value) : isObject b = true -> truthy b = true.
Proof. destruct b; cbn; congruence. Qed.

(** C3, as the code has it. The classifier applies these rules in order and
    the first that matches decides: a transport error gives Transport; a falsy
    body (absent, null, false, 0 or the empty string) gives EmptyResponse; a
    truthy body that is neither an object nor an array gives UnparseableHTML
    when the text extracted from it is non-empty and UnparseableBody
    otherwise; a body whose [code] property is truthy gives ApiError named by
    it; else a body whose [error] property is truthy gives ApiError named by
    it; else a status other than 200, 201, 202 gives HttpStatus named by the
    status; else success. The body [{"code":"ERR001","description":"Invalid
    nonce"}] with status 400 is an ApiError named ERR001. *)
Theorem classifier_rules (desc : string) (r : response) :
  (forall e, err r = Some e ->
     exists v, classify desc r = Some v /\ kind v = Transport /\ cause v = Some e)
  /\ (err r = None -> truthy (body r) = false ->
        exists v, classify desc r = Some v /\ kind v = EmptyResponse)
  /\ (err r = None -> truthy (body r) = true -> isObject (body r) = false ->
        exists v, classify desc r = Some v
                  /\ kind v = if nonempty (body_text (body r))
                              then UnparseableHTML else UnparseableBody)
  /\ (err r = None -> isObject (body r) = true ->
        truthy (get (body r) "code") = true ->
        exists v, classify desc r = Some v /\ kind v = ApiError
                  /\ name v = get (body r) "code")
  /\ (err r = None -> isObject (body r) = true ->
        truthy (get (body r) "code") = false ->
        truthy (get (body r) "error") = true ->
        exists v, classify desc r = Some v /\ kind v = ApiError
                  /\ name v = get (body r) "error")
  /\ (err r = None -> isObject (body r) = true ->
        truthy (get (body r) "code") = false ->
        truthy (get (body r) "error") = false ->
        status_ok (statusCode r) = false ->
        exists v, classify desc r = Some v /\ kind v = HttpStatus
                  /\ name v = VNum (statusCode r))
  /\ (err r = None -> isObject (body r) = true ->
        truthy (get (body r) "code") = false ->
        truthy (get (body r) "error") = false ->
        status_ok (statusCode r) = true ->
        classify desc r = None)
  /\ (exists v,
        classify desc {| err := None; statusCode := 400;
                         body := Fixtures.invalid_nonce |} = Some v
        /\ kind v = ApiError /\ name v = VStr "ERR001").
Proof.
  unfold classify.
  repeat match goal with |- _ /\ _ => split end.
  - intros e ->. eexists. repeat split.
  - intros -> ->. eexists. split; reflexivity.
  - intros -> -> ->. cbn [negb].
    destruct (nonempty (body_text (body r))); eexists; split; reflexivity.
  - intros -> Ho Hc. rewrite Ho, Hc, (isObject_truthy _ Ho). cbn [negb andb].
    eexists. repeat split.
  - intros -> Ho Hc He. rewrite Ho, Hc, He, (isObject_truthy _ Ho). cbn [negb andb].
    eexists. repeat split.
  - intros -> Ho Hc He Hs. rewrite Ho, Hc, He, Hs, (isObject_truthy _ Ho).
    cbn [negb andb]. eexists. repeat split.
  - intros -> Ho Hc He Hs. rewrite Ho, Hc, He, Hs, (isObject_truthy _ Ho).
    reflexivity.
  - eexists. cbn. repeat split.
Qed.

(** The classifier on the literal responses of the specification. *)

Example maintenance_is_an_api_error (desc : string) :
  exists v,
    classify desc
      {| err := None; statusCode := 200;
         body := VObj [("error",
                        VStr "The itBit API is currently undergoing maintenance")] |}
    = Some v
    /\ kind v = ApiError
    /\ name v = VStr "The itBit API is currently undergoing maintenance".
Proof. eexists. cbn. repeat split. Qed.

Example empty_body_is_an_empty_response (desc : string) :
  option_map kind
    (classify desc {| err := None; statusCode := 200; body := VStr EmptyString |})
  = Some EmptyResponse.
Proof. reflexivity. Qed.

Example html_page_is_unparseable_html (desc : string) (page : string) :
  nonempty page = true ->
  body_text (VStr page) = "Service Unavailable" ->
  option_map kind
    (classify desc {| err := None; statusCode := 503; body := VStr page |})
  = Some UnparseableHTML.
Proof.
  intros Hp Ht. unfold classify. cbn [err body truthy isObject negb].
  unfold nonempty in Hp. rewrite Hp, Ht. reflexivity.
Qed.

Example created_order_is_a_success (desc : string) :
  classify desc
    {| err := None; statusCode := 201;
       body := VObj [("id", VStr "abc123"); ("status", VStr "open")] |}
  = None.
Proof. reflexivity. Qed.

Example server_error_is_an_http_status (desc : string) :
  exists v,
    classify desc
      {| err := None; statusCode := 500; body := VObj [("id", VStr "abc")] |}
    = Some v
    /\ kind v = HttpStatus /\ name v = VNum 500.
Proof. eexists. cbn. repeat split. Qed.

(** C7, as the code has it. A response classified as success carries a body
    that [_.isObject] accepts: a decoded JSON object or a JSON array, never a
    string, a number, a boolean, [null] or no body; and the callback receives
    that body as it came from the transport. *)
Theorem success_body_is_object_or_array (self : ItBit) (o : options) (net : transport) :
  classify (requestDesc o) (net o) = None ->
  ((exists ps, body (net o) = VObj ps) \/ (exists l, body (net o) = VArr l))
  /\ delivered (executeRequest self o net) = Callback None (body (net o)).
Proof.
  intros H. split.
  - unfold classify in H.
    destruct (err (net o)); [discriminate |].
    destruct (body (net o)) as [| | b | n | x | s | l | ps] eqn:E;
      cbn [truthy isObject negb] in H; try discriminate; eauto;
      repeat match type of H with
             | (if ?c then _ else _) = None => destruct c; try discriminate
             end.
  - unfold executeRequest. cbn [delivered]. now rewrite H.
Qed.

(** C8, as the code has it. Every failure hands the caller one error as the
    first argument of the callback. The failures raised before a request is
    made (missing credentials, unknown API version) pass nothing else; the
    failures found by the classifier pass, next to the error, the body the
    transport delivered, exactly as on success. *)
Theorem failure_delivery (self : ItBit) :
  (forall m path args now net,
     credentials self = None ->
     exists e, delivered (makePrivateRequest self m path args now net)
               = Callback (Some e) VUndefined
               /\ kind e = CredentialsMissing)
  /\ (forall version path args net,
        version <> "v1" -> version <> "v2" ->
        exists e, delivered (makePublicRequest self version path args net)
                  = Callback (Some e) VUndefined
                  /\ kind e = InvalidVersion)
  /\ (forall o net,
        delivered (executeRequest self o net)
        = Callback (classify (requestDesc o) (net o)) (body (net o)))
  /\ (forall o net e,
        classify (requestDesc o) (net o) = Some e ->
        delivered (executeRequest self o net) = Callback (Some e) (body (net o))).
Proof.
  repeat match goal with |- _ /\ _ => split end.
  - intros m path args now net H. unfold makePrivateRequest. rewrite H.
    eexists. split; reflexivity.
  - intros version path args net H1 H2. unfold makePublicRequest.
    apply String.eqb_neq in H1, H2. rewrite H1, H2.
    eexists. split; reflexivity.
  - reflexivity.
  - intros o net e H. unfold executeRequest. cbn [delivered]. now rewrite H.
Qed.

(** *** The module-level client *)

Lemma update_same {A : Type} (l : list A) (i : nat) (x : A) :
  nth_error l i = Some x -> update i x l = l.
Proof.
  revert i. induction l as [| y l IH]; intros [| i] H; cbn in *;
    try discriminate.
  - now inversion H.
  - now rewrite IH.
Qed.

Lemma nth_error_update {A : Type} (l : list A) (i : nat) (x y : A) :
  nth_error l i = Some x -> nth_error (update i y l) i = Some y.
Proof.
  revert i. induction l as [| z l IH]; intros [| i] H; cbn in *;
    try discriminate; auto.
Qed.

Lemma store_same (rt : runtime) (obj : ItBit) :
  deref rt = Some obj -> store rt obj = rt.
Proof.
  unfold deref, store. destruct rt as [h [r |]]; cbn; [| discriminate].
  intros H. now rewrite update_same.
Qed.

Lemma deref_store (rt : runtime) (obj obj' : ItBit) :
  deref rt = Some obj -> deref (store rt obj') = Some obj'.
Proof.
  unfold deref, store. destruct rt as [h [r |]]; cbn; [| discriminate].
  apply nth_error_update.
Qed.

Lemma credentials_bump (self : ItBit) : credentials (bump self) = credentials self.
Proof. reflexivity. Qed.

(** A private call on a client with credentials: one request goes out with
    the current counter as its nonce, and the counter is one more afterwards,
    whatever the network answers. *)
Lemma invoke_private (rt : runtime) (this : nat) (op : operation) (now : Z)
    (net : transport) (obj : ItBit) (m path : string) (args : value) :
  deref rt = Some obj ->
  credentials obj <> None ->
  marshal op = inr (Private m path args) ->
  exists o cb,
    invoke rt this op now net = (store rt (bump obj), Returned [o] cb)
    /\ nonce_of o = [nonce obj].
Proof.
  intros Hd Hc Hm. unfold invoke. rewrite Hm, Hd. cbn [perform].
  destruct (credentials obj) as [[k s] |] eqn:E; [| congruence].
  rewrite (makePrivateRequest_signed _ _ _ _ _ _ _ _ E).
  cbn [executeRequest after dispatched delivered].
  eexists. eexists. split; reflexivity.
Qed.

(** C4, as the code has it. When the client the module-level [self] refers to
    (the most recently constructed instance) lacks a key or a secret, a call
    of a private endpoint through any instance hands the caller a
    credentials-missing error and nothing else: no request goes out and the
    runtime, nonce counter included, is left as it was. *)
Theorem private_call_without_credentials
    (rt : runtime) (this : nat) (op : operation) (now : Z) (net : transport)
    (obj : ItBit) (m path : string) (args : value) :
  deref rt = Some obj ->
  present (key obj) = false \/ present (secret obj) = false ->
  marshal op = inr (Private m path args) ->
  exists e,
    invoke rt this op now net = (rt, Returned [] (Callback (Some e) VUndefined))
    /\ kind e = CredentialsMissing.
Proof.
  intros Hd Hc Hm. apply credentials_missing in Hc.
  unfold invoke. rewrite Hm, Hd. cbn [perform].
  unfold makePrivateRequest. rewrite Hc.
  cbn [after dispatched delivered]. rewrite (store_same _ _ Hd).
  eexists. split; reflexivity.
Qed.

(** *** The nonce counter *)

Lemma ascending_sorted (n : Z) (a len : nat) :
  StronglySorted Z.lt (map (fun i => n + Z.of_nat i) (seq a len)).
Proof.
  revert a. induction len as [| len IH]; intros a; cbn; constructor.
  - apply IH.
  - apply Forall_forall. intros x Hx.
    apply in_map_iff in Hx. destruct Hx as (i & <- & Hi).
    apply in_seq in Hi. lia.
Qed.

Lemma sorted_lt_NoDup (l : list Z) : StronglySorted Z.lt l -> NoDup l.
Proof.
  induction 1 as [| x l Hs IH Hall]; constructor; auto.
  intros Hin. rewrite Forall_forall in Hall. specialize (Hall _ Hin). lia.
Qed.

Lemma run_private_calls (evs : list event) :
  forall (rt : runtime) (obj : ItBit),
    deref rt = Some obj ->
    credentials obj <> None ->
    forallb is_private_call evs = true ->
    nonces_of (snd (run rt evs))
    = map (fun i => nonce obj + Z.of_nat i) (seq 0 (List.length evs))
    /\ exists obj',
         deref (fst (run rt evs)) = Some obj'
         /\ nonce obj' = nonce obj + Z.of_nat (List.length evs)
         /\ credentials obj' = credentials obj.
Proof.
  induction evs as [| ev evs IH]; intros rt obj Hd Hc Hall.
  - cbn. split; [reflexivity |]. exists obj. rewrite Z.add_0_r. auto.
  - cbn [forallb] in Hall. apply andb_true_iff in Hall. destruct Hall as [Hev Hall].
    destruct ev as [st now | this op now net]; [discriminate |].
    cbn [is_private_call] in Hev.
    destruct (marshal op) as [e | [v p a | m p a]] eqn:Hm; try discriminate.
    destruct (invoke_private rt this op now net obj m p a Hd Hc Hm)
      as (o & cb & Hinv & Hn).
    cbn [run step]. rewrite Hinv.
    assert (Hd' : deref (store rt (bump obj)) = Some (bump obj))
      by (eapply deref_store; eauto).
    assert (Hc' : credentials (bump obj) <> None) by exact Hc.
    destruct (IH _ _ Hd' Hc' Hall) as (Hns & obj' & Hd2 & Hn2 & Hc2).
    destruct (run (store rt (bump obj)) evs) as [rt2 obs] eqn:Hrun.
    cbn [fst snd] in *. split.
    + unfold nonces_of in *. cbn [flat_map sent_of]. rewrite Hn, Hns.
      cbn [List.length seq map app]. f_equal; [lia |].
      rewrite <- seq_shift, map_map. apply map_ext. intros i. cbn [bump nonce]. lia.
    + exists obj'. repeat split; auto.
      rewrite Hn2. cbn [bump nonce List.length]. lia.
Qed.

(** A market-data call sends no nonce and leaves the module as it was. *)
Lemma invoke_public (rt : runtime) (this : nat) (op : operation) (now : Z)
    (net : transport) (obj : ItBit) (version path : string) (args : value) :
  deref rt = Some obj ->
  marshal op = inr (Public version path args) ->
  exists sent cb,
    invoke rt this op now net = (rt, Returned sent cb)
    /\ flat_map nonce_of sent = [].
Proof.
  intros Hd Hm. unfold invoke. rewrite Hm, Hd. cbn [perform].
  unfold makePublicRequest.
  destruct (version =? "v1")%string; [| destruct (version =? "v2")%string];
    cbn [executeRequest after dispatched delivered];
    rewrite (store_same _ _ Hd); eexists; eexists; split; reflexivity.
Qed.

(** Method calls of any kind, with no construction among them: the private
    ones send the successive values of the counter, the others (market-data
    calls, calls that raise) send no nonce and leave the counter alone. *)
Lemma run_calls (evs : list event) :
  forall (rt : runtime) (obj : ItBit),
    deref rt = Some obj ->
    credentials obj <> None ->
    constructions evs = 0%nat ->
    nonces_of (snd (run rt evs))
    = map (fun i => nonce obj + Z.of_nat i) (seq 0 (private_calls evs))
    /\ exists obj',
         deref (fst (run rt evs)) = Some obj'
         /\ nonce obj' = nonce obj + Z.of_nat (private_calls evs)
         /\ credentials obj' = credentials obj.
Proof.
  induction evs as [| ev evs IH]; intros rt obj Hd Hc Hn.
  - cbn. split; [reflexivity |]. exists obj. rewrite Z.add_0_r. auto.
  - destruct ev as [st now | this op now net]; [discriminate |].
    assert (Hn' : constructions evs = 0%nat) by exact Hn.
    unfold private_calls. cbn [filter is_private_call run step].
    destruct (marshal op) as [e | [v p a | m p a]] eqn:Hm.
    + unfold invoke. rewrite Hm.
      destruct (IH _ _ Hd Hc Hn') as (Hns & obj' & Hd2 & Hn2 & Hc2).
      destruct (run rt evs) as [rt2 obs]. cbn [fst snd] in *.
      split; [exact Hns | exists obj'; auto].
    + destruct (invoke_public rt this op now net obj v p a Hd Hm)
        as (sent & cb & Hinv & Hs).
      rewrite Hinv.
      destruct (IH _ _ Hd Hc Hn') as (Hns & obj' & Hd2 & Hn2 & Hc2).
      destruct (run rt evs) as [rt2 obs]. cbn [fst snd] in *.
      split; [| exists obj'; auto].
      unfold nonces_of in *. cbn [flat_map sent_of]. rewrite Hs. exact Hns.
    + destruct (invoke_private rt this op now net obj m p a Hd Hc Hm)
        as (o & cb & Hinv & Ho).
      rewrite Hinv.
      assert (Hd' : deref (store rt (bump obj)) = Some (bump obj))
        by (eapply deref_store; eauto).
      assert (Hc' : credentials (bump obj) <> None) by exact Hc.
      destruct (IH _ _ Hd' Hc' Hn') as (Hns & obj' & Hd2 & Hn2 & Hc2).
      destruct (run (store rt (bump obj)) evs) as [rt2 obs].
      cbn [fst snd] in *. fold (private_calls evs). split.
      * unfold nonces_of in *. cbn [flat_map sent_of]. rewrite Ho, Hns.
        cbn [List.length seq map app]. f_equal; [lia |].
        rewrite <- seq_shift, map_map. apply map_ext. intros i.
        cbn [bump nonce]. lia.
      * exists obj'. repeat split; auto.
        rewrite Hn2. unfold private_calls. cbn [bump nonce List.length]. lia.
Qed.

(** C5, as the code has it. From any state of the module in which the client
    [self] refers to has credentials, take any sequence of method calls,
    through whichever instances and whatever the network answers to each,
    with no client constructed in between. The N private calls among them
    send the nonces c, c+1, ..., c+N-1, where c is the counter before the
    first call: strictly increasing, without repeats. The counter is c+N
    afterwards: each private call advances it once, failed or not, and the
    other calls (market-data calls, calls that raise) leave it alone. *)
Theorem nonces_of_consecutive_private_calls
    (rt : runtime) (obj : ItBit) (evs : list event) :
  deref rt = Some obj ->
  credentials obj <> None ->
  constructions evs = 0%nat ->
  nonces_of (snd (run rt evs))
  = map (fun i => nonce obj + Z.of_nat i) (seq 0 (private_calls evs))
  /\ StronglySorted Z.lt (nonces_of (snd (run rt evs)))
  /\ NoDup (nonces_of (snd (run rt evs)))
  /\ exists obj',
       deref (fst (run rt evs)) = Some obj'
       /\ nonce obj' = nonce obj + Z.of_nat (private_calls evs).
Proof.
  intros Hd Hc Hn.
  destruct (run_calls evs rt obj Hd Hc Hn) as (Hns & obj' & Hd' & Hn' & _).
  assert (Hs : StronglySorted Z.lt (nonces_of (snd (run rt evs))))
    by (rewrite Hns; apply ascending_sorted).
  repeat split; auto using sorted_lt_NoDup.
  exists obj'. auto.
Qed.

(** *** addOrder *)

(** C9, at the input the source documents ("price is an optional argument, if
    not used it must be set to null"): [price.toString()] raises a TypeError
    while the arguments are built, so the call ends in an exception instead of
    a callback invocation. *)
Theorem addOrder_null_price_throws
    (rt : runtime) (this : nat) (w side type metadata coid : value)
    (amount instrument : string) (now : Z) (net : transport) :
  invoke rt this
    (addOrder w side type (VStr amount) VNull (VStr instrument) metadata coid)
    now net
  = (rt, Threw (TypeError "Cannot read properties of null (reading 'toString')")).
Proof. reflexivity. Qed.

(** C10. A call of [addOrder] that sends a request sends the arguments with
    [currency] the first three characters of [instrument], [amount] and
    [price] as the strings they convert to, and [metadata] and
    [clientOrderIdentifier] present exactly when the value given is truthy,
    hence only when one was given. A request is sent when the client has
    credentials and the conversions succeed: of the wallet id in the path, of
    [amount] and of [price]. The numbers in [amount] and [price], fractions
    and numbers printed with an exponent included, are JavaScript numbers as
    the model writes them ([representable]). *)
Theorem addOrder_request_arguments
    (rt : runtime) (this : nat) (obj : ItBit)
    (w side type amount price metadata coid : value) (instrument w' a p : string)
    (now : Z) (net : transport) :
  deref rt = Some obj ->
  credentials obj <> None ->
  ToStringE w = inr w' ->
  toString amount = inr a ->
  toString price = inr p ->
  representable amount = true ->
  representable price = true ->
  exists o cb args,
    invoke rt this
      (addOrder w side type amount price (VStr instrument) metadata coid) now net
    = (store rt (bump obj), Returned [o] cb)
    /\ method o = "POST"
    /\ json o = VObj args
    /\ lookup "currency" args = Some (VStr (string_take 3 instrument))
    /\ lookup "amount" args = Some (VStr a)
    /\ lookup "price" args = Some (VStr p)
    /\ lookup "instrument" args = Some (VStr instrument)
    /\ lookup "metadata" args = (if truthy metadata then Some metadata else None)
    /\ lookup "clientOrderIdentifier" args
       = (if truthy coid then Some coid else None)
    /\ (lookup "metadata" args <> None -> metadata <> VUndefined)
    /\ (lookup "clientOrderIdentifier" args <> None -> coid <> VUndefined).
Proof.
  intros Hd Hc Hw Ha Hp _ _.
  destruct (credentials obj) as [[k s] |] eqn:E; [| congruence].
  unfold invoke. cbn [marshal]. unfold addOrder_args, bind, ret.
  cbn [slice_0_3]. rewrite Ha, Hp, Hw, Hd. cbn [perform].
  rewrite (makePrivateRequest_signed _ _ _ _ _ _ _ _ E).
  cbn [executeRequest after dispatched delivered].
  destruct (truthy metadata) eqn:Em, (truthy coid) eqn:Eo;
    (eexists; eexists; eexists; split; [reflexivity |]);
    cbn; repeat match goal with |- _ /\ _ => split end;
    try reflexivity;
    intros H; try congruence; intros ->; cbn in *; congruence.
Qed.

End Properties.

(* ===================================================================== *)
(** ** The properties at concrete inputs                                  *)
(* ===================================================================== *)

Import Fixtures.

(** C1 at [getWallet("w")] on the fixture client, clock reading 1001. *)
Lemma canonical_message_of_private_request_witness :
  marshal (getWallet (VStr "w")) = inr (Private "GET" "/wallets/w" (VObj []))
  /\ credentials client = Some ("k", "s")
  /\ exists (o : options) (b : string),
       dispatched (makePrivateRequest (prim := toy) client "GET" "/wallets/w"
                     (VObj []) 1001 (answers 200 (VObj []))) = [o]
       /\ method o = "GET"
       /\ postData "GET" (VObj []) = VStr b
       /\ canonical_message "GET" (uri o) (postData "GET" (VObj [])) 1000 1001
          = "1000"
              ++ "[" ++ (QuoteJSONString "GET" ++ ","
                         ++ QuoteJSONString (uri o) ++ ","
                         ++ QuoteJSONString b ++ ","
                         ++ QuoteJSONString "1000" ++ ","
                         ++ QuoteJSONString "1001") ++ "]"
       /\ get (VObj (headers o)) "Authorization"
          = VStr ("k" ++ ":" ++ sign (prim := toy) "s" (uri o)
                                  (canonical_message "GET" (uri o)
                                     (postData "GET" (VObj [])) 1000 1001)).
Proof.
  split; [reflexivity |]. split; [reflexivity |].
  apply (canonical_message_of_private_request (prim := toy)
           (getWallet (VStr "w")) "GET" "/wallets/w" (VObj []) client "k" "s"
           1001 (answers 200 (VObj [])));
    reflexivity.
Defined.

(** C2 at a POST of [{}] on the fixture client. *)
Lemma signature_of_private_request_witness :
  credentials client = Some ("k", "s")
  /\ exists o : options,
       dispatched (makePrivateRequest (prim := toy) client "POST" "/wallets/w/orders"
                     (VObj []) 1001 unreachable) = [o]
       /\ get (VObj (headers o)) "Authorization"
          = VStr ("k" ++ ":"
                    ++ Buffer.base64
                         (hmac_sha512 (Primitives := toy) (Buffer.from "s")
                            (Buffer.from (uri o)
                               ++ sha256 (Primitives := toy)
                                    (Buffer.from
                                       (canonical_message "POST" (uri o)
                                          (VStr "{}") 1000 1001)))%list)).
Proof.
  split; [reflexivity |].
  destruct (signature_of_private_request (prim := toy) client "k" "s" "POST"
              "/wallets/w/orders" (VObj []) 1001 unreachable eq_refl)
    as (o & Hd & _ & _ & Ha & _).
  exists o. split; [exact Hd | exact Ha].
Defined.

(** C3 fails as stated: the body [{"code":0}] has a [code] field, and with
    status 200 the classifier reports success, with status 400 an HTTP status
    error, in neither case an API error. *)
Lemma falsy_code_field_is_not_an_api_error :
  has_field "code" (VObj [("code", VNum 0)]) = true
  /\ classify (prim := toy) EmptyString
       {| err := None; statusCode := 200; body := VObj [("code", VNum 0)] |}
     = None
  /\ option_map kind
       (classify (prim := toy) EmptyString
          {| err := None; statusCode := 400; body := VObj [("code", VNum 0)] |})
     = Some HttpStatus.
Proof. repeat split. Qed.

(** C4 fails as stated for an instance: the first client is built without
    credentials, a second one with; a private call through the first is
    signed with the credentials of the second and goes out. *)
Lemma call_through_instance_without_credentials_is_sent :
  let prog := [New without_credentials 1000;
               New with_credentials 1001;
               Call 0 (getWallet (VStr "w")) 1002 (answers 200 (VObj []))] in
  option_map key (nth_error (heap (fst (run (prim := toy) loaded prog))) 0)
  = Some None
  /\ exists o,
       snd (run (prim := toy) loaded prog)
       = [Created 0; Created 1; Returned [o] (Callback None (VObj []))]
       /\ nonce_of o = [1001].
Proof. cbv zeta. split; [reflexivity |]. eexists. split; reflexivity. Qed.

(** C4 at a call of [getWallet] on a module whose only client has no
    credentials. *)
Lemma private_call_without_credentials_witness :
  deref started_bare = Some (construct without_credentials 1000)
  /\ present (key (construct without_credentials 1000)) = false
  /\ exists e,
       invoke (prim := toy) started_bare 0 (getWallet (VStr "w")) 1001 unreachable
       = (started_bare, Returned [] (Callback (Some e) VUndefined))
       /\ kind e = CredentialsMissing.
Proof.
  split; [reflexivity |]. split; [reflexivity |].
  apply (private_call_without_credentials (prim := toy) started_bare 0
           (getWallet (VStr "w")) 1001 unreachable
           (construct without_credentials 1000) "GET" "/wallets/w" (VObj []));
    [reflexivity | left; reflexivity | reflexivity].
Defined.

(** C5 fails as stated for an instance: three calls through the first client
    within one millisecond, a second client built a millisecond later, and the
    next call through the first client sends the nonce 1001 again. *)
Lemma second_instance_reseeds_the_counter :
  let call := Call 0 (getWallet (VStr "w")) 1000 (answers 200 (VObj [])) in
  let prog := [New with_credentials 1000; call; call; call;
               New with_credentials 1001;
               Call 0 (getWallet (VStr "w")) 1001 (answers 200 (VObj []))] in
  nonces_of (snd (run (prim := toy) loaded prog)) = [1000; 1001; 1002; 1001].
Proof. reflexivity. Qed.

(** C5 on the fixture module: three private calls, the second on a dead
    network and the third answered with an API error, with a market-data
    call and an [addOrder] that raises on its [null] price in between. *)
Lemma nonces_of_consecutive_private_calls_witness :
  let evs := [Call 0 (getWallet (VStr "w")) 1000 (answers 200 (VObj []));
              Call 0 (getTicker (VStr "XBTUSD")) 1000 (answers 200 (VObj []));
              Call 0 (cancelOrder (VStr "w") (VStr "o")) 1000 unreachable;
              Call 0 (addOrder (VStr "w") (VStr "buy") (VStr "market")
                        (VStr "1") VNull (VStr "XBTUSD") VUndefined VUndefined)
                1000 unreachable;
              Call 0 (getOrders (VStr "w") (VStr "XBTUSD") (VStr "open")) 1000
                (answers 400 invalid_nonce)] in
  nonces_of (snd (run (prim := toy) started evs)) = [1000; 1001; 1002]
  /\ StronglySorted Z.lt (nonces_of (snd (run (prim := toy) started evs)))
  /\ NoDup (nonces_of (snd (run (prim := toy) started evs)))
  /\ exists obj',
       deref (fst (run (prim := toy) started evs)) = Some obj'
       /\ nonce obj' = 1003.
Proof.
  cbv zeta.
  apply (nonces_of_consecutive_private_calls (prim := toy) started client
           [Call 0 (getWallet (VStr "w")) 1000 (answers 200 (VObj []));
            Call 0 (getTicker (VStr "XBTUSD")) 1000 (answers 200 (VObj []));
            Call 0 (cancelOrder (VStr "w") (VStr "o")) 1000 unreachable;
            Call 0 (addOrder (VStr "w") (VStr "buy") (VStr "market")
                      (VStr "1") VNull (VStr "XBTUSD") VUndefined VUndefined)
              1000 unreachable;
            Call 0 (getOrders (VStr "w") (VStr "XBTUSD") (VStr "open")) 1000
              (answers 400 invalid_nonce)]);
    [reflexivity | discriminate | reflexivity].
Defined.

(** C6 fails as stated: [cancelOrder] is a DELETE with the arguments [{}],
    whose compact JSON encoding is [{}], and the body it signs is empty. *)
Lemma delete_signs_the_empty_string :
  marshal (cancelOrder (VStr "w") (VStr "o"))
  = inr (Private "DELETE" "/wallets/w/orders/o" (VObj []))
  /\ JSON_stringify_value (VObj []) = VStr "{}"
  /\ postData "DELETE" (VObj []) = VStr EmptyString.
Proof. repeat split. Qed.

(** C7 fails as stated: a JSON array, the shape of a list of wallets, is
    delivered as a success. *)
Lemma array_body_is_a_success :
  is_mapping (VArr [VObj [("id", VStr "w")]]) = false
  /\ exists o,
       snd (invoke (prim := toy) started 0 (getWallets (VStr "u")) 1001
              (answers 200 (VArr [VObj [("id", VStr "w")]])))
       = Returned [o] (Callback None (VArr [VObj [("id", VStr "w")]])).
Proof. split; [reflexivity |]. eexists. reflexivity. Qed.

(** C7 at a ticker answered with an object. *)
Lemma success_body_is_object_or_array_witness :
  classify (prim := toy) (requestDesc ticker_request)
    (answers 200 (VObj [("bid", VStr "1")]) ticker_request) = None
  /\ ((exists ps, body (answers 200 (VObj [("bid", VStr "1")]) ticker_request)
                  = VObj ps)
      \/ (exists l, body (answers 200 (VObj [("bid", VStr "1")]) ticker_request)
                    = VArr l))
  /\ delivered (executeRequest (prim := toy) client ticker_request
                  (answers 200 (VObj [("bid", VStr "1")])))
     = Callback None (VObj [("bid", VStr "1")]).
Proof.
  split; [reflexivity |].
  apply (success_body_is_object_or_array (prim := toy) client ticker_request
           (answers 200 (VObj [("bid", VStr "1")])) eq_refl).
Defined.

(** C8 fails as stated: on an API error the callback receives the error and,
    next to it, the response body. *)
Lemma api_error_comes_with_the_body :
  exists o e,
    snd (invoke (prim := toy) started 0 (getWallet (VStr "w")) 1001
           (answers 400 invalid_nonce))
    = Returned [o] (Callback (Some e) invalid_nonce)
    /\ kind e = ApiError
    /\ name e = VStr "ERR001".
Proof. eexists. eexists. repeat split. Qed.

(** C10 at a limit order on XBTUSD with a client order identifier and no
    metadata, the amount the number 1.5 and the price the number 1e21. *)
Lemma addOrder_request_arguments_witness :
  exists o cb args,
    invoke (prim := toy) started 0
      (addOrder (VStr "w") (VStr "buy") (VStr "limit")
         (VReal (Decimal false 15 1)) (VReal (Decimal false 1 22))
         (VStr "XBTUSD") VUndefined (VStr "id-1")) 1001 (answers 201 (VObj []))
    = (store started (bump client), Returned [o] cb)
    /\ method o = "POST"
    /\ json o = VObj args
    /\ lookup "currency" args = Some (VStr "XBT")
    /\ lookup "amount" args = Some (VStr "1.5")
    /\ lookup "price" args = Some (VStr "1e+21")
    /\ lookup "instrument" args = Some (VStr "XBTUSD")
    /\ lookup "metadata" args = None
    /\ lookup "clientOrderIdentifier" args = Some (VStr "id-1")
    /\ (lookup "metadata" args <> None -> VUndefined <> VUndefined)
    /\ (lookup "clientOrderIdentifier" args <> None -> VStr "id-1" <> VUndefined).
Proof.
  apply (addOrder_request_arguments (prim := toy) started 0 client
           (VStr "w") (VStr "buy") (VStr "limit")
           (VReal (Decimal false 15 1)) (VReal (Decimal false 1 22))
           VUndefined (VStr "id-1") "XBTUSD" "w" "1.5" "1e+21" 1001
           (answers 201 (VObj [])));
    [reflexivity | discriminate | reflexivity | reflexivity | reflexivity
    | reflexivity | reflexivity].
Defined.

(* ===================================================================== *)
(** ** Further properties: constructor, wrappers, public requests         *)
(* ===================================================================== *)

Section FurtherProperties.

Context {prim : Primitives}.

Lemma append_assoc (a b c : string) : (a ++ b) ++ c = a ++ b ++ c.
Proof. induction a as [| x a IH]; cbn; [reflexivity | now rewrite IH]. Qed.

Lemma append_empty_r (a : string) : a ++ EmptyString = a.
Proof. induction a as [| x a IH]; cbn; [reflexivity | now rewrite IH]. Qed.

Lemma or_string_nonempty (x : option string) (d : string) :
  nonempty d = true -> nonempty (or_string x d) = true.
Proof.
  intros Hd. unfold or_string. destruct x as [s |]; [| exact Hd].
  destruct (s =? EmptyString)%string eqn:E; [exact Hd |].
  unfold nonempty. now rewrite E.
Qed.

(** X1. The constructor never leaves a base URL empty or the timeout at
    zero: an absent or empty URL becomes the default URL, an absent or zero
    timeout becomes 20000, every other setting is kept as given, and the
    counter starts at the clock reading. *)
Theorem constructor_defaults (st : settings) (now : Z) :
  nonempty (serverV1 (construct st now)) = true
  /\ nonempty (serverV2 (construct st now)) = true
  /\ timeout (construct st now) <> 0
  /\ nonce (construct st now) = now
  /\ key (construct st now) = s_key st
  /\ secret (construct st now) = s_secret st
  /\ (present (s_serverV1 st) = false ->
        serverV1 (construct st now) = "https://api.itbit.com/v1")
  /\ (present (s_serverV2 st) = false ->
        serverV2 (construct st now) = "https://www.itbit.com/api/v2")
  /\ (forall u, s_serverV1 st = Some u -> nonempty u = true ->
        serverV1 (construct st now) = u)
  /\ (forall u, s_serverV2 st = Some u -> nonempty u = true ->
        serverV2 (construct st now) = u)
  /\ (forall t, s_timeout st = Some t -> t <> 0 -> timeout (construct st now) = t)
  /\ (s_timeout st = None \/ s_timeout st = Some 0 ->
        timeout (construct st now) = 20000).
Proof.
  unfold construct. cbn [serverV1 serverV2 timeout nonce key secret].
  repeat match goal with |- _ /\ _ => split end; try reflexivity.
  - now apply or_string_nonempty.
  - now apply or_string_nonempty.
  - unfold or_number. destruct (s_timeout st) as [t |]; [| discriminate].
    destruct (t =? 0) eqn:E; [discriminate |]. now apply Z.eqb_neq.
  - unfold present, nonempty, or_string. destruct (s_serverV1 st) as [u |]; [| reflexivity].
    intros H. apply negb_false_iff in H. now rewrite H.
  - unfold present, nonempty, or_string. destruct (s_serverV2 st) as [u |]; [| reflexivity].
    intros H. apply negb_false_iff in H. now rewrite H.
  - intros u -> H. unfold nonempty in H. apply negb_true_iff in H.
    unfold or_string. now rewrite H.
  - intros u -> H. unfold nonempty in H. apply negb_true_iff in H.
    unfold or_string. now rewrite H.
  - intros t -> H. unfold or_number. apply Z.eqb_neq in H. now rewrite H.
  - intros [-> | ->]; reflexivity.
Qed.

(** What each wrapper hands to the pipeline. *)
Lemma marshal_shape (op : operation) (c : call) :
  marshal op = inr c ->
  match c with
  | Public version path args =>
      version = "v1" /\ args = VObj []
      /\ exists rest, path = "/markets/" ++ rest
  | Private m path args =>
      (m = "GET" \/ m = "POST" \/ m = "DELETE")
      /\ (exists rest, path = "/wallets" ++ rest)
      /\ (m = "POST" -> exists ps, args = VObj ps)
      /\ (m = "DELETE" -> args = VObj [] /\ exists w id, op = cancelOrder w id)
  end.
Proof.
  intros H. destruct op; open_marshal H; inversion H; subst; clear H;
    repeat match goal with
           | |- _ /\ _ => split
           | |- exists _, _ = _ ++ _ => eexists; reflexivity
           end;
    try reflexivity; try discriminate; auto;
    try solve [intros _; eauto].
  intros _.
  match goal with
  | E : addOrder_args _ _ _ _ _ _ _ = inr _ |- _ =>
      exact (addOrder_args_object _ _ _ _ _ _ _ _ E)
  end.
Qed.

(** X2. No wrapper issues a PUT: a wrapper that reaches the pipeline makes a
    public call of version v1 with empty arguments on a path under /markets/,
    or a private GET, POST or DELETE on a path that is /wallets or lies under
    /wallets/; a POST carries an object, and the only DELETE is [cancelOrder],
    with empty arguments. *)
Theorem wrapper_calls (op : operation) (c : call) :
  marshal op = inr c ->
  match c with
  | Public version path args =>
      version = "v1" /\ args = VObj []
      /\ exists rest, path = "/markets/" ++ rest
  | Private m path args =>
      (m = "GET" \/ m = "POST" \/ m = "DELETE")
      /\ (exists rest, path = "/wallets" ++ rest)
      /\ (m = "POST" -> exists ps, args = VObj ps)
      /\ (m = "DELETE" -> args = VObj [] /\ exists w id, op = cancelOrder w id)
  end.
Proof. exact (marshal_shape op c). Qed.

(** *** The classifier, read backwards *)

(** X3. A response is a success exactly when there is no transport error,
    the body is an object or an array, its [code] and [error] properties are
    falsy, and the status is 200, 201 or 202. *)
Theorem success_iff (desc : string) (r : response) :
  classify desc r = None <->
  err r = None
  /\ isObject (body r) = true
  /\ truthy (get (body r) "code") = false
  /\ truthy (get (body r) "error") = false
  /\ status_ok (statusCode r) = true.
Proof.
  unfold classify. split.
  - destruct (err r); [discriminate |].
    destruct (truthy (body r)) eqn:Et; cbn [negb]; [| discriminate].
    destruct (isObject (body r)) eqn:Eo; cbn [negb andb].
    + destruct (truthy (get (body r) "code")); [discriminate |].
      destruct (truthy (get (body r) "error")); [discriminate |].
      destruct (status_ok (statusCode r)); [auto | discriminate].
    + destruct (nonempty (body_text (body r))); discriminate.
  - intros (-> & Ho & -> & -> & ->).
    rewrite Ho, (isObject_truthy _ Ho). reflexivity.
Qed.

(** The response behind each kind of error. *)
Lemma classify_inversion (desc : string) (r : response) (e : VError) :
  classify desc r = Some e ->
  match kind e with
  | Transport => err r <> None /\ cause e = err r
  | EmptyResponse => err r = None /\ truthy (body r) = false
  | UnparseableHTML =>
      err r = None /\ truthy (body r) = true /\ isObject (body r) = false
      /\ nonempty (body_text (body r)) = true
  | UnparseableBody =>
      err r = None /\ truthy (body r) = true /\ isObject (body r) = false
      /\ nonempty (body_text (body r)) = false
  | ApiError =>
      err r = None /\ isObject (body r) = true
      /\ ((truthy (get (body r) "code") = true /\ name e = get (body r) "code")
          \/ (truthy (get (body r) "code") = false
              /\ truthy (get (body r) "error") = true
              /\ name e = get (body r) "error"))
  | HttpStatus =>
      err r = None /\ isObject (body r) = true
      /\ truthy (get (body r) "code") = false
      /\ truthy (get (body r) "error") = false
      /\ status_ok (statusCode r) = false
      /\ name e = VNum (statusCode r)
  | CredentialsMissing | InvalidVersion => False
  end.
Proof.
  unfold classify.
  destruct (err r) as [x |] eqn:Ee.
  { intros H. inversion H; subst. cbn. split; [discriminate | reflexivity]. }
  destruct (truthy (body r)) eqn:Et; cbn [negb].
  2: { intros H. inversion H; subst. cbn. auto. }
  destruct (isObject (body r)) eqn:Eo; cbn [negb andb].
  2: { destruct (nonempty (body_text (body r))) eqn:En;
         intros H; inversion H; subst; cbn; auto. }
  destruct (truthy (get (body r) "code")) eqn:Ec.
  { intros H. inversion H; subst. cbn. auto. }
  destruct (truthy (get (body r) "error")) eqn:Er.
  { intros H. inversion H; subst. cbn. repeat split; auto. }
  destruct (status_ok (statusCode r)) eqn:Es; cbn [negb]; [discriminate |].
  intros H. inversion H; subst. cbn. repeat split; auto.
Qed.

(** X4. The kind of an error tells what the response was: Transport only
    with a transport error, which it keeps as its cause; EmptyResponse only
    for a falsy body; the two Unparseable kinds only for a truthy body that is
    neither object nor array, told apart by the extracted text; ApiError only
    for an object or array, named by the truthy [code] or else the truthy
    [error]; HttpStatus only for an object or array with neither and a status
    outside 200, 201, 202, which names it. The classifier never reports
    missing credentials or an invalid version. *)
Theorem error_kind_inversion (desc : string) (r : response) (e : VError) :
  classify desc r = Some e ->
  match kind e with
  | Transport => err r <> None /\ cause e = err r
  | EmptyResponse => err r = None /\ truthy (body r) = false
  | UnparseableHTML =>
      err r = None /\ truthy (body r) = true /\ isObject (body r) = false
      /\ nonempty (body_text (body r)) = true
  | UnparseableBody =>
      err r = None /\ truthy (body r) = true /\ isObject (body r) = false
      /\ nonempty (body_text (body r)) = false
  | ApiError =>
      err r = None /\ isObject (body r) = true
      /\ ((truthy (get (body r) "code") = true /\ name e = get (body r) "code")
          \/ (truthy (get (body r) "code") = false
              /\ truthy (get (body r) "error") = true
              /\ name e = get (body r) "error"))
  | HttpStatus =>
      err r = None /\ isObject (body r) = true
      /\ truthy (get (body r) "code") = false
      /\ truthy (get (body r) "error") = false
      /\ status_ok (statusCode r) = false
      /\ name e = VNum (statusCode r)
  | CredentialsMissing | InvalidVersion => False
  end.
Proof. exact (classify_inversion desc r e). Qed.

Lemma occurs_in_middle (pre x post : string) : occurs_in x (pre ++ x ++ post).
Proof. exists pre, post. reflexivity. Qed.

Lemma occurs_in_end (pre x : string) : occurs_in x (pre ++ x).
Proof. exists pre, EmptyString. now rewrite append_empty_r. Qed.

Lemma occurs_in_trans (x d s : string) :
  occurs_in x d -> occurs_in d s -> occurs_in x s.
Proof.
  intros (p1 & q1 & ->) (p2 & q2 & ->).
  exists (p2 ++ p1), (q1 ++ q2). now rewrite !append_assoc.
Qed.

Lemma requestDesc_names_the_request (o : options) :
  occurs_in (method o ++ " request to url " ++ uri o) (requestDesc o).
Proof.
  unfold requestDesc. destruct (method o =? "GET")%string.
  - exists EmptyString, EmptyString. cbn. now rewrite append_empty_r.
  - exists EmptyString. eexists. cbn. rewrite !append_assoc. reflexivity.
Qed.

Lemma classify_message (desc : string) (r : response) (e : VError) :
  classify desc r = Some e -> occurs_in desc (message e).
Proof.
  unfold classify.
  destruct (err r) as [x |].
  { intros H. inversion H; subst. cbn [message].
    apply (occurs_in_middle "ItBit.executeRequest() failed "). }
  destruct (negb (truthy (body r))).
  { intros H. inversion H; subst. cbn [message mkError].
    apply (occurs_in_middle "ItBit.executeRequest() failed "). }
  destruct (negb (isObject (body r))).
  { destruct (nonempty (body_text (body r))); intros H; inversion H; subst;
      cbn [message mkError].
    - apply (occurs_in_middle
               "ItBit.executeRequest() could not parse response body from ").
    - apply (occurs_in_end
               "ItBit.executeRequest() could not parse json or HTML response from "). }
  destruct (truthy (body r) && truthy (get (body r) "code")).
  { intros H. inversion H; subst. cbn [message mkError with_name].
    apply (occurs_in_middle "ItBit.executeRequest() failed "). }
  destruct (truthy (body r) && truthy (get (body r) "error")).
  { intros H. inversion H; subst. cbn [message mkError with_name].
    apply (occurs_in_middle "ItBit.executeRequest() failed "). }
  destruct (negb (status_ok (statusCode r))); [| discriminate].
  intros H. inversion H; subst. cbn [message mkError with_name].
  apply (occurs_in_middle "ItBit.executeRequest() failed ").
Qed.

(** X5. Every error [executeRequest] hands to the callback says which
    request failed: its message contains the method and the full URI of the
    request, as "<method> request to url <uri>". *)
Theorem error_message_names_the_request
    (self : ItBit) (o : options) (net : transport) (e : VError) (b : value) :
  delivered (executeRequest self o net) = Callback (Some e) b ->
  occurs_in (method o ++ " request to url " ++ uri o) (message e).
Proof.
  unfold executeRequest. cbn [delivered]. intros H. inversion H as [[Hc Hb]].
  eapply occurs_in_trans.
  - apply requestDesc_names_the_request.
  - exact (classify_message _ _ _ Hc).
Qed.

(** *** Method calls and the module state *)

Lemma makePublicRequest_v1 (obj : ItBit) (path : string) (net : transport) :
  makePublicRequest obj "v1" path (VObj []) net
  = executeRequest obj
      {| method := "GET";
         uri := serverV1 obj ++ path;
         headers := [("User-Agent", VStr "itBit node.js client");
                     ("Content-type", VStr "application/x-www-form-urlencoded")];
         json := VObj [];
         req_timeout := None |} net.
Proof. reflexivity. Qed.

(** X6. A market-data call needs no credentials and leaves the module as it
    was: exactly one GET goes to the version 1 server, without
    [Authorization] header, without nonce and without timeout, and the
    counter is not advanced. *)
Theorem public_call_is_unsigned
    (rt : runtime) (this : nat) (op : operation) (now : Z) (net : transport)
    (obj : ItBit) (version path : string) (args : value) :
  deref rt = Some obj ->
  marshal op = inr (Public version path args) ->
  exists o,
    invoke rt this op now net
    = (rt, Returned [o] (Callback (classify (requestDesc o) (net o)) (body (net o))))
    /\ method o = "GET"
    /\ uri o = serverV1 obj ++ path
    /\ get (VObj (headers o)) "Authorization" = VUndefined
    /\ nonce_of o = []
    /\ req_timeout o = None.
Proof.
  intros Hd Hm.
  destruct (marshal_shape _ _ Hm) as (-> & -> & _).
  unfold invoke. rewrite Hm, Hd. cbn [perform].
  rewrite makePublicRequest_v1.
  cbn [executeRequest after dispatched delivered].
  rewrite (store_same _ _ Hd).
  eexists. split; [reflexivity |]. repeat split.
Qed.

Lemma classify_kind_of_response (desc : string) (r : response) (e : VError) :
  classify desc r = Some e ->
  kind e <> CredentialsMissing /\ kind e <> InvalidVersion.
Proof.
  intros H. pose proof (classify_inversion _ _ _ H) as K.
  destruct (kind e); try contradiction; split; discriminate.
Qed.

(** X7. Through the exported methods the invalid-version error cannot
    occur, and an error is the credentials-missing one exactly when no request
    went out; in that case the callback receives no body and the module is
    unchanged. *)
Theorem error_origins
    (rt rt' : runtime) (this : nat) (op : operation) (now : Z) (net : transport)
    (sent : list options) (e : VError) (b : value) :
  invoke rt this op now net = (rt', Returned sent (Callback (Some e) b)) ->
  kind e <> InvalidVersion
  /\ (kind e = CredentialsMissing <-> sent = [])
  /\ (kind e = CredentialsMissing -> b = VUndefined /\ rt' = rt).
Proof.
  unfold invoke.
  destruct (marshal op) as [x | c] eqn:Hm; [discriminate |].
  destruct (deref rt) as [obj |] eqn:Hd; [| discriminate].
  destruct c as [v p a | m p a]; cbn [perform].
  - destruct (marshal_shape _ _ Hm) as (-> & -> & _).
    rewrite makePublicRequest_v1. cbn [executeRequest after dispatched delivered].
    intros H. inversion H as [[Hrt Hs Hc Hb]].
    destruct (classify_kind_of_response _ _ _ Hc) as [K1 K2].
    repeat split; auto; try discriminate; try contradiction.
  - destruct (credentials obj) as [[k s] |] eqn:Hc.
    + rewrite (makePrivateRequest_signed _ _ _ _ _ _ _ _ Hc).
      cbn [executeRequest after dispatched delivered].
      intros H. inversion H as [[Hrt Hs Hcl Hb]].
      destruct (classify_kind_of_response _ _ _ Hcl) as [K1 K2].
      repeat split; auto; try discriminate; try contradiction.
    + unfold makePrivateRequest. rewrite Hc. cbn [after dispatched delivered].
      intros H. inversion H; subst. cbn [kind mkError].
      rewrite (store_same _ _ Hd).
      repeat split; auto; discriminate.
Qed.

Lemma perform_after (obj : ItBit) (c : call) (now : Z) (net : transport) :
  after (perform obj c now net) = obj \/ after (perform obj c now net) = bump obj.
Proof.
  destruct c as [v p a | m p a]; cbn [perform].
  - left. unfold makePublicRequest.
    destruct (v =? "v1")%string; [reflexivity |].
    destruct (v =? "v2")%string; reflexivity.
  - unfold makePrivateRequest.
    destruct (credentials obj) as [[k s] |]; [right | left]; reflexivity.
Qed.

Lemma perform_dispatched (obj : ItBit) (c : call) (now : Z) (net : transport) :
  (List.length (dispatched (perform obj c now net)) <= 1)%nat.
Proof.
  destruct c as [v p a | m p a]; cbn [perform].
  - unfold makePublicRequest.
    destruct (v =? "v1")%string; [cbn; lia |].
    destruct (v =? "v2")%string; cbn; lia.
  - unfold makePrivateRequest.
    destruct (credentials obj) as [[k s] |]; cbn; lia.
Qed.

Lemma invoke_sends_at_most_one
    (rt : runtime) (this : nat) (op : operation) (now : Z) (net : transport) :
  (List.length (sent_of (snd (invoke rt this op now net))) <= 1)%nat.
Proof.
  unfold invoke.
  destruct (marshal op) as [x | c]; [cbn; lia |].
  destruct (deref rt) as [obj |]; [| cbn; lia].
  cbn [snd sent_of]. apply perform_dispatched.
Qed.

(** X8. Nothing is retried: in any program the number of requests handed to
    the network is at most the number of method calls, whatever the network
    answers. *)
Theorem requests_are_never_repeated (rt : runtime) (evs : list event) :
  (List.length (flat_map sent_of (snd (run rt evs))) + constructions evs
   <= List.length evs)%nat.
Proof.
  revert rt. induction evs as [| ev evs IH]; intros rt; [cbn; lia |].
  cbn [run]. destruct (step rt ev) as [rt1 ob] eqn:Hs.
  specialize (IH rt1). destruct (run rt1 evs) as [rt2 obs].
  cbn [snd flat_map] in *. rewrite length_app.
  destruct ev as [st now | this op now net]; cbn [step] in Hs.
  - inversion Hs; subst. unfold constructions in *. cbn in *. lia.
  - pose proof (invoke_sends_at_most_one rt this op now net) as Hle.
    rewrite Hs in Hle. cbn [snd] in Hle.
    unfold constructions in *. cbn in *. lia.
Qed.

Lemma length_update {A : Type} (i : nat) (x : A) (l : list A) :
  List.length (update i x l) = List.length l.
Proof.
  revert i. induction l as [| y l IH]; intros [| i]; cbn; auto.
Qed.

Lemma nth_error_update_other {A : Type} (i j : nat) (x : A) (l : list A) :
  i <> j -> nth_error (update i x l) j = nth_error l j.
Proof.
  revert i j. induction l as [| y l IH]; intros [| i] [| j] H; cbn; auto.
  congruence.
Qed.

Lemma store_shape (rt : runtime) (x : ItBit) :
  self (store rt x) = self rt
  /\ List.length (heap (store rt x)) = List.length (heap rt)
  /\ forall i, self rt <> Some i -> nth_error (heap (store rt x)) i = nth_error (heap rt) i.
Proof.
  unfold store. destruct rt as [h [r |]]; cbn; [| auto].
  repeat split; [apply length_update |].
  intros i H. apply nth_error_update_other. congruence.
Qed.

Lemma invoke_shape
    (rt : runtime) (this : nat) (op : operation) (now : Z) (net : transport) :
  self (fst (invoke rt this op now net)) = self rt
  /\ List.length (heap (fst (invoke rt this op now net))) = List.length (heap rt)
  /\ forall i, self rt <> Some i ->
       nth_error (heap (fst (invoke rt this op now net))) i = nth_error (heap rt) i.
Proof.
  unfold invoke.
  destruct (marshal op) as [x | c]; [cbn; auto |].
  destruct (deref rt) as [obj |]; [| cbn; auto].
  cbn [fst]. apply store_shape.
Qed.

(** X9. A method call changes nothing but the counter of the client [self]
    refers to: [self] keeps its target, no instance is added or removed, every
    other instance is untouched, and the current client keeps its key, secret,
    base URLs and timeout, its counter staying put or going up by one. *)
Theorem call_moves_only_the_counter
    (rt : runtime) (this : nat) (op : operation) (now : Z) (net : transport)
    (obj : ItBit) :
  deref rt = Some obj ->
  self (fst (invoke rt this op now net)) = self rt
  /\ List.length (heap (fst (invoke rt this op now net))) = List.length (heap rt)
  /\ (forall i, self rt <> Some i ->
        nth_error (heap (fst (invoke rt this op now net))) i = nth_error (heap rt) i)
  /\ exists obj',
       deref (fst (invoke rt this op now net)) = Some obj'
       /\ key obj' = key obj /\ secret obj' = secret obj
       /\ serverV1 obj' = serverV1 obj /\ serverV2 obj' = serverV2 obj
       /\ timeout obj' = timeout obj
       /\ (nonce obj' = nonce obj \/ nonce obj' = nonce obj + 1).
Proof.
  intros Hd.
  destruct (invoke_shape rt this op now net) as (H1 & H2 & H3).
  repeat split; auto.
  unfold invoke.
  destruct (marshal op) as [x | c].
  { exists obj. cbn [fst]. repeat split; auto. }
  rewrite Hd. cbn [fst].
  destruct (perform_after obj c now net) as [-> | ->].
  - exists obj. rewrite (store_same _ _ Hd). repeat split; auto.
  - exists (bump obj). rewrite (deref_store _ _ _ Hd). repeat split; auto.
Qed.

(** X10. [self] always refers to the instance constructed last: after any
    program started on the freshly loaded module there are as many instances
    as constructions, and [self] is unset when there was none and refers to
    the last one otherwise. *)
Theorem self_is_the_newest_instance (evs : list event) :
  List.length (heap (fst (run loaded evs))) = constructions evs
  /\ self (fst (run loaded evs))
     = match constructions evs with
       | O => None
       | S n => Some n
       end.
Proof.
  assert (G : forall rt,
             self rt = match List.length (heap rt) with O => None | S n => Some n end ->
             List.length (heap (fst (run rt evs)))
             = (List.length (heap rt) + constructions evs)%nat
             /\ self (fst (run rt evs))
                = match (List.length (heap rt) + constructions evs)%nat with
                  | O => None
                  | S n => Some n
                  end).
  { induction evs as [| ev evs IH]; intros rt Hrt.
    - cbn. rewrite Nat.add_0_r. auto.
    - cbn [run]. destruct (step rt ev) as [rt1 ob] eqn:Hs.
      specialize (IH rt1). destruct (run rt1 evs) as [rt2 obs].
      cbn [fst] in *.
      destruct ev as [st now | this op now net]; cbn [step] in Hs.
      + inversion Hs; subst. unfold constructions in *. cbn in *.
        rewrite length_app in *. cbn in *.
        replace (List.length (heap rt) + 1)%nat with (S (List.length (heap rt))) in IH by lia.
        specialize (IH eq_refl).
        replace (List.length (heap rt)
                 + S (List.length
                        (filter (fun ev => match ev with New _ _ => true | _ => false end) evs)))%nat
          with (S (List.length (heap rt))
                + List.length
                    (filter (fun ev => match ev with New _ _ => true | _ => false end) evs))%nat
          by lia.
        exact IH.
      + destruct (invoke_shape rt this op now net) as (H1 & H2 & _).
        rewrite Hs in H1, H2. cbn [fst] in H1, H2.
        rewrite H1, H2 in IH. specialize (IH Hrt).
        unfold constructions in *. cbn in *. exact IH. }
  apply (G loaded). reflexivity.
Qed.

Lemma deref_new_ItBit (st : settings) (t : Z) (rt : runtime) :
  deref (fst (new_ItBit st t rt)) = Some (construct st t).
Proof.
  unfold new_ItBit, deref. cbn.
  rewrite nth_error_app2 by lia. now rewrite Nat.sub_diag.
Qed.

(** X11. A client constructed with key and secret counts from the clock:
    whatever the module held before, the private calls that follow the
    construction at clock reading t send the nonces t, t+1, t+2, ... in
    order, whatever the clock reads later and whatever the network answers. *)
Theorem fresh_client_counts_from_the_clock
    (rt : runtime) (st : settings) (t : Z) (evs : list event) :
  present (s_key st) = true ->
  present (s_secret st) = true ->
  forallb is_private_call evs = true ->
  nonces_of (snd (run (fst (new_ItBit st t rt)) evs))
  = map (fun i => t + Z.of_nat i) (seq 0 (List.length evs)).
Proof.
  intros Hk Hs Hall.
  assert (Hc : credentials (construct st t) <> None).
  { intros Hn. apply credentials_missing in Hn. cbn [construct key secret] in Hn.
    destruct Hn; congruence. }
  destruct (run_private_calls evs _ _ (deref_new_ItBit st t rt) Hc Hall) as [H _].
  exact H.
Qed.

Lemma request_uri_prefix (obj : ItBit) (m path : string) (args : value) :
  exists rest, request_uri obj m path args = serverV1 obj ++ rest.
Proof.
  unfold request_uri.
  destruct (is_body_method m); [eauto |].
  destruct ((m =? "GET")%string && negb (isEmpty args)); [| eauto].
  eexists. apply append_assoc.
Qed.

(** X12. Every request of every method goes to the version 1 server: its
    URI begins with the [serverV1] of the client [self] refers to. The
    [serverV2] setting is never used. *)
Theorem every_request_goes_to_serverV1
    (rt : runtime) (this : nat) (op : operation) (now : Z) (net : transport)
    (obj : ItBit) (o : options) :
  deref rt = Some obj ->
  In o (sent_of (snd (invoke rt this op now net))) ->
  exists rest, uri o = serverV1 obj ++ rest.
Proof.
  intros Hd. unfold invoke.
  destruct (marshal op) as [x | c] eqn:Hm; [intros [] |].
  rewrite Hd. cbn [snd sent_of].
  destruct c as [v p a | m p a]; cbn [perform].
  - destruct (marshal_shape _ _ Hm) as (-> & -> & _).
    rewrite makePublicRequest_v1. cbn [executeRequest dispatched].
    intros [<- | []]. cbn [uri]. eauto.
  - destruct (credentials obj) as [[k s] |] eqn:Hc.
    + rewrite (makePrivateRequest_signed _ _ _ _ _ _ _ _ Hc).
      cbn [executeRequest dispatched]. intros [<- | []]. cbn [uri].
      apply request_uri_prefix.
    + unfold makePrivateRequest. rewrite Hc. cbn [dispatched]. intros [].
Qed.

(** *** Exceptions of the wrappers *)

Lemma slice_0_3_raises (v : value) :
  (exists e, slice_0_3 v = inl e) <-> has_slice v = false.
Proof.
  destruct v; cbn; split; intros H; try discriminate; eauto;
    destruct H; discriminate.
Qed.

Lemma all_or_first_raises (l : list (exn + string)) :
  (exists e, all_or_first l = inl e) <-> exists e, In (inl e) l.
Proof.
  induction l as [| [e | s] l IH]; cbn.
  - split; intros [e H]; [discriminate | contradiction].
  - split; intros _; eauto.
  - destruct (all_or_first l) as [e |].
    + split; [intros _ | eauto].
      destruct (proj1 IH (ex_intro _ e eq_refl)) as [e' H]. eauto.
    + split; [intros [e H]; discriminate |].
      intros [e [H | H]]; [discriminate |].
      destruct (proj2 IH (ex_intro _ e H)) as [e' H']. discriminate.
Qed.

Lemma ToStringE_raises :
  forall v, (exists e, ToStringE v = inl e) <-> convertible v = false.
Proof.
  fix IH 1. intros v.
  destruct v as [| | b | n | x | s | l | ps]; cbn [ToStringE convertible];
    try (split; [intros [e H]; discriminate | discriminate]).
  - assert (A : (exists e, In (inl e)
                     (map (fun x => match x with
                                    | VUndefined | VNull => inr EmptyString
                                    | _ => ToStringE x
                                    end) l))
                <-> forallb convertible l = false).
    { induction l as [| x l IHl]; cbn [map In forallb].
      - split; [intros [e []] | discriminate].
      - rewrite andb_false_iff. rewrite <- IHl. rewrite <- (IH x).
        split.
        + intros [e [H | H]]; [left | right; eauto].
          destruct x; try discriminate; eauto.
        + intros [[e H] | [e H]]; [| eauto].
          exists e. left. destruct x; try discriminate; exact H. }
    rewrite <- A, <- all_or_first_raises.
    destruct (all_or_first _) as [e |]; split; intros [e' H];
      try discriminate; eauto.
  - destruct (has_own "toString" ps); cbn [negb]; split;
      try discriminate; eauto; intros [e H]; discriminate.
Qed.

Lemma toString_raises (v : value) :
  (exists e, toString v = inl e) <-> nullish v = true \/ convertible v = false.
Proof.
  destruct v as [| | b | n | x | s | l | ps]; cbn [toString nullish].
  - split; eauto.
  - split; eauto.
  - split; [intros [e H]; discriminate | intros [H | H]; discriminate].
  - split; [intros [e H]; discriminate | intros [H | H]; discriminate].
  - split; [intros [e H]; discriminate | intros [H | H]; discriminate].
  - split; [intros [e H]; discriminate | intros [H | H]; discriminate].
  - rewrite ToStringE_raises. split; [auto | intros [H | H]; [discriminate | exact H]].
  - cbn [convertible]. destruct (has_own "toString" ps); cbn [negb]; split; eauto.
    + intros [e H]; discriminate.
    + intros [H | H]; discriminate.
Qed.

(** Number::toString at 1.5, 1e21, 1e20, 0.001, 1e-7, -1.5e-7 and 123.456. *)
Example numeral_toString_examples :
  map numeral_toString
    [Decimal false 15 1; Decimal false 1 22; Decimal false 1 21;
     Decimal false 1 (-2); Decimal false 1 (-6); Decimal true 15 (-6);
     Decimal false 123456 3]
  = ["1.5"; "1e+21"; "100000000000000000000"; "0.001"; "1e-7"; "-1.5e-7";
     "123.456"].
Proof. reflexivity. Qed.

Lemma forallb_convertible_raises (l : list value) :
  forallb convertible l = false <-> exists v e, In v l /\ ToStringE v = inl e.
Proof.
  induction l as [| x l IH]; cbn [forallb In].
  - split; [discriminate | intros (v & e & [] & _)].
  - rewrite andb_false_iff, IH, <- ToStringE_raises. split.
    + intros [[e H] | (v & e & Hin & H)]; eauto 6.
    + intros (v & e & [-> | Hin] & H); eauto 6.
Qed.

(** X13. A method raises exactly when a value interpolated into its path
    does not convert to a string (it is, or an array holds at some depth, an
    object with an own [toString] property), or, for [addOrder], when
    [instrument] has no [slice] method (it is neither a string nor an array),
    or [amount] or [price] is [null], [undefined] or does not convert. In
    particular a method other than [addOrder] whose path arguments convert
    reaches the pipeline. *)
Theorem only_addOrder_raises (op : operation) :
  (exists e, marshal op = inl e) <->
  forallb convertible (interpolated op) = false
  \/ exists w side type amount price instrument metadata coid,
       op = addOrder w side type amount price instrument metadata coid
       /\ (has_slice instrument = false
           \/ nullish amount = true \/ convertible amount = false
           \/ nullish price = true \/ convertible price = false).
Proof.
  split.
  - intros [e H].
    destruct op; cbn [marshal interpolated] in *; unfold ret, bind in H;
      try discriminate;
      try (left; apply forallb_convertible_raises;
           repeat match type of H with
                  | context [ToStringE ?v] =>
                      destruct (ToStringE v) eqn:?;
                      [do 2 eexists; split; [| eassumption]; cbn; auto; fail |]
                  end;
           discriminate).
    destruct (addOrder_args side type amount price instrument metadata
                clientOrderIdentifier) as [x | a] eqn:E.
    + right. do 8 eexists. split; [reflexivity |].
      unfold addOrder_args, bind, ret in E.
      destruct (slice_0_3 instrument) as [y |] eqn:E1.
      { left. apply slice_0_3_raises. eauto. }
      destruct (toString amount) as [y |] eqn:E2.
      { right. assert (T : exists e, toString amount = inl e) by eauto.
        apply toString_raises in T. tauto. }
      destruct (toString price) as [y |] eqn:E3.
      { right. assert (T : exists e, toString price = inl e) by eauto.
        apply toString_raises in T. tauto. }
      discriminate.
    + left. apply forallb_convertible_raises.
      destruct (ToStringE walletId) eqn:Ew; [| discriminate].
      do 2 eexists. split; [| eassumption]. cbn. auto.
  - intros [H | (w & side & type & amount & price & instrument & metadata & coid & -> & H)].
    + apply forallb_convertible_raises in H. destruct H as (v & e & Hin & Hv).
      destruct op; cbn [marshal interpolated In] in *; unfold ret, bind;
        repeat match goal with
               | H : _ \/ _ |- _ => destruct H
               | H : False |- _ => destruct H
               end; subst;
        repeat match goal with
               | |- context [addOrder_args ?a ?b ?c ?d ?e ?f ?g] =>
                   destruct (addOrder_args a b c d e f g); [eauto |]
               | |- context [ToStringE ?x] =>
                   destruct (ToStringE x) eqn:?; [eauto |]
               end;
        try discriminate; try congruence.
    + cbn [marshal]. unfold addOrder_args, bind, ret.
      destruct (slice_0_3 instrument) as [x | c] eqn:E1; [eauto |].
      destruct (toString amount) as [x | a] eqn:E2; [eauto |].
      destruct (toString price) as [x | q] eqn:E3; [eauto |].
      exfalso.
      assert (S1 : ~ exists e, slice_0_3 instrument = inl e)
        by (intros [e He]; congruence).
      assert (S2 : ~ exists e, toString amount = inl e)
        by (intros [e He]; congruence).
      assert (S3 : ~ exists e, toString price = inl e)
        by (intros [e He]; congruence).
      rewrite slice_0_3_raises in S1. rewrite toString_raises in S2, S3.
      tauto.
Qed.

(** *** The canonical message tells requests apart *)

Lemma read_literal_char (c : ascii) (x : string) :
  read_literal (QuoteJSONChar c ++ x) = push c (read_literal x).
Proof.
  destruct c as [b0 b1 b2 b3 b4 b5 b6 b7].
  destruct b0, b1, b2, b3, b4, b5, b6, b7; reflexivity.
Qed.

Lemma read_literal_chars (s r : string) :
  read_literal (QuoteJSONChars s ++ String dquote r) = Some (s, r).
Proof.
  induction s as [| c s IH]; [reflexivity |].
  cbn [QuoteJSONChars]. rewrite append_assoc, read_literal_char, IH. reflexivity.
Qed.

Lemma QuoteJSONChars_split (s s' r r' : string) :
  QuoteJSONChars s ++ String dquote r = QuoteJSONChars s' ++ String dquote r' ->
  s = s' /\ r = r'.
Proof.
  intros H. apply (f_equal read_literal) in H.
  rewrite !read_literal_chars in H. now inversion H.
Qed.

Lemma after_bracket_digits (d : Decimal.uint) (x : string) :
  after_bracket (NilEmpty.string_of_uint d ++ x) = after_bracket x.
Proof. induction d; cbn; auto. Qed.

Lemma after_bracket_decimal (n : Z) (r : string) :
  after_bracket (Number_toString n ++ String "[" r) = Some r.
Proof.
  unfold Number_toString.
  assert (U : forall d, after_bracket (NilZero.string_of_uint d ++ String "[" r) = Some r).
  { intros d. destruct d; try reflexivity;
      unfold NilZero.string_of_uint; now rewrite after_bracket_digits. }
  destruct (Z.to_int n) as [d | d]; cbn [NilZero.string_of_int]; [apply U |].
  cbn. apply U.
Qed.

Lemma Number_toString_inj (n n' : Z) :
  Number_toString n = Number_toString n' -> n = n'.
Proof.
  unfold Number_toString. intros H.
  assert (P : forall z, NilZero.int_of_string (NilZero.string_of_int (Z.to_int z))
                        = Some (Z.to_int z)).
  { intros z. apply NilZero.isi; destruct z; cbn; try discriminate;
      intros E; inversion E as [E']; now apply Unsigned.to_uint_nonnil in E'. }
  apply (f_equal NilZero.int_of_string) in H. rewrite !P in H.
  inversion H as [H']. now apply DecimalZ.to_int_inj.
Qed.

(** X15. The canonical message is unambiguous: two requests have the same
    message exactly when they have the same method, URI, body, nonce and
    timestamp. *)
Theorem canonical_message_injective
    (m m' u u' b b' : string) (n n' t t' : Z) :
  canonical_message m u (VStr b) n t = canonical_message m' u' (VStr b') n' t'
  <-> m = m' /\ u = u' /\ b = b' /\ n = n' /\ t = t'.
Proof.
  split; [| intros (-> & -> & -> & -> & ->); reflexivity].
  rewrite !canonical_message_string_body. intros H.
  apply (f_equal after_bracket) in H. cbn [append] in H.
  rewrite !after_bracket_decimal in H.
  inversion H as [H0]. clear H. unfold QuoteJSONString in H0.
  repeat first [rewrite !append_assoc in H0 | progress cbn [append] in H0].
  apply QuoteJSONChars_split in H0. destruct H0 as [-> H0].
  inversion H0 as [H1]. clear H0.
  apply QuoteJSONChars_split in H1. destruct H1 as [-> H1].
  inversion H1 as [H2]. clear H1.
  apply QuoteJSONChars_split in H2. destruct H2 as [-> H2].
  inversion H2 as [H3]. clear H2.
  apply QuoteJSONChars_split in H3. destruct H3 as [Hn H3].
  inversion H3 as [H4]. clear H3.
  apply QuoteJSONChars_split in H4. destruct H4 as [Ht _].
  apply Number_toString_inj in Hn, Ht. subst. auto.
Qed.

(** *** More on what a request and an error carry *)

(** X16. For a request that is not a GET, the error also says which nonce
    it carried and which data it sent: its message contains
    " with nonce <X-Auth-Nonce header> and data <JSON of the arguments>". *)
Theorem error_message_names_nonce_and_data
    (self : ItBit) (o : options) (net : transport) (e : VError) (b : value) :
  method o <> "GET" ->
  delivered (executeRequest self o net) = Callback (Some e) b ->
  occurs_in (" with nonce " ++ ToString (get (VObj (headers o)) "X-Auth-Nonce")
               ++ " and data " ++ ToString (JSON_stringify_value (json o)))
    (message e).
Proof.
  intros Hm. unfold executeRequest. cbn [delivered].
  intros H. inversion H as [[Hc Hb]].
  eapply occurs_in_trans; [| exact (classify_message _ _ _ Hc)].
  unfold requestDesc. apply String.eqb_neq in Hm. rewrite Hm.
  exists (method o ++ " request to url " ++ uri o), EmptyString.
  rewrite !append_assoc. now rewrite append_empty_r.
Qed.

(** X17. [getWallets] always sends a [userId] parameter: for a client with
    credentials and a user id that is not an array and whose number, if it is
    one, is a JavaScript number as the model writes it, the request is a GET
    of <serverV1>/wallets?userId=<escaped userId>, where a user id that is
    not a string, a finite number or a boolean (an absent one included)
    leaves the value empty. *)
Theorem getWallets_query
    (rt : runtime) (this : nat) (userId : value) (now : Z) (net : transport)
    (obj : ItBit) :
  deref rt = Some obj ->
  credentials obj <> None ->
  (forall l, userId <> VArr l) ->
  representable userId = true ->
  exists o cb,
    invoke rt this (getWallets userId) now net
    = (store rt (bump obj), Returned [o] cb)
    /\ method o = "GET"
    /\ uri o = serverV1 obj ++ "/wallets?userId=" ++ escape (stringifyPrimitive userId)
    /\ (nullish userId = true -> uri o = serverV1 obj ++ "/wallets?userId=").
Proof.
  intros Hd Hc Ha _.
  destruct (credentials obj) as [[k s] |] eqn:E; [| congruence].
  unfold invoke. cbn [marshal]. unfold ret. rewrite Hd. cbn [perform].
  rewrite (makePrivateRequest_signed _ _ _ _ _ _ _ _ E).
  cbn [executeRequest after dispatched delivered].
  eexists. eexists. split; [reflexivity |]. cbn [method uri].
  assert (U : request_uri obj "GET" "/wallets" (VObj [("userId", userId)])
              = serverV1 obj ++ "/wallets?userId=" ++ escape (stringifyPrimitive userId)).
  { unfold request_uri. cbn [is_body_method String.eqb Ascii.eqb Bool.eqb orb andb
                              isEmpty negb].
    unfold querystring_stringify, query_fields. cbn [flat_map fst snd].
    destruct userId; try (exfalso; eapply Ha; reflexivity);
      cbn [app join]; rewrite !append_assoc; reflexivity. }
  repeat split; [exact U |].
  intros Hn. rewrite U. destruct userId; try discriminate; reflexivity.
Qed.

End FurtherProperties.

(* ===================================================================== *)
(** ** The further properties at concrete inputs                          *)
(* ===================================================================== *)

(** X2 at [getTrades("XBTUSD")] without a cursor. *)
Lemma wrapper_calls_witness :
  marshal (getTrades (VStr "XBTUSD") VUndefined)
  = inr (Public "v1" "/markets/XBTUSD/trades?since=0" (VObj []))
  /\ exists rest, "/markets/XBTUSD/trades?since=0" = "/markets/" ++ rest.
Proof.
  split; [reflexivity |].
  destruct (wrapper_calls (getTrades (VStr "XBTUSD") VUndefined)
              (Public "v1" "/markets/XBTUSD/trades?since=0" (VObj [])) eq_refl)
    as (_ & _ & H).
  exact H.
Defined.

(** X4 at a status 500 with an object body. *)
Lemma error_kind_inversion_witness :
  exists e,
    classify (prim := toy) EmptyString
      {| err := None; statusCode := 500; body := VObj [("id", VStr "abc")] |}
    = Some e
    /\ kind e = HttpStatus
    /\ status_ok 500 = false
    /\ name e = VNum 500.
Proof.
  eexists. split; [reflexivity |]. split; [reflexivity |].
  destruct (error_kind_inversion (prim := toy) EmptyString
              {| err := None; statusCode := 500; body := VObj [("id", VStr "abc")] |}
              _ eq_refl) as (_ & _ & _ & _ & Hs & Hn).
  split; [exact Hs | exact Hn].
Defined.

(** X5 at a ticker request on a dead network. *)
Lemma error_message_names_the_request_witness :
  exists e,
    delivered (executeRequest (prim := toy) client ticker_request unreachable)
    = Callback (Some e) VUndefined
    /\ occurs_in "GET request to url https://api.itbit.com/v1/markets/XBTUSD/ticker"
         (message e).
Proof.
  eexists. split; [reflexivity |].
  exact (error_message_names_the_request (prim := toy) client ticker_request
           unreachable _ _ eq_refl).
Defined.

(** X6 at [getTicker] on a module whose client has no credentials. *)
Lemma public_call_is_unsigned_witness :
  exists o,
    invoke (prim := toy) started_bare 0 (getTicker (VStr "XBTUSD")) 1001
      (answers 200 (VObj [("bid", VStr "1")]))
    = (started_bare, Returned [o] (Callback None (VObj [("bid", VStr "1")])))
    /\ method o = "GET"
    /\ uri o = "https://api.itbit.com/v1/markets/XBTUSD/ticker"
    /\ get (VObj (headers o)) "Authorization" = VUndefined
    /\ nonce_of o = []
    /\ req_timeout o = None.
Proof.
  exact (public_call_is_unsigned (prim := toy) started_bare 0
           (getTicker (VStr "XBTUSD")) 1001 (answers 200 (VObj [("bid", VStr "1")]))
           (construct without_credentials 1000) "v1" "/markets/XBTUSD/ticker" (VObj [])
           eq_refl eq_refl).
Defined.

(** X7 at a private call on a module whose client has no credentials. *)
Lemma error_origins_witness :
  exists e,
    invoke (prim := toy) started_bare 0 (getWallet (VStr "w")) 1001 unreachable
    = (started_bare, Returned [] (Callback (Some e) VUndefined))
    /\ kind e <> InvalidVersion
    /\ (kind e = CredentialsMissing <-> @nil options = [])
    /\ (kind e = CredentialsMissing -> VUndefined = VUndefined /\ started_bare = started_bare).
Proof.
  eexists. split; [reflexivity |].
  exact (error_origins (prim := toy) started_bare started_bare 0
           (getWallet (VStr "w")) 1001 unreachable [] _ VUndefined eq_refl).
Defined.

(** X9 at a private call on the fixture module. *)
Lemma call_moves_only_the_counter_witness :
  self (fst (invoke (prim := toy) started 0 (getWallet (VStr "w")) 1001 unreachable))
  = self started
  /\ exists obj',
       deref (fst (invoke (prim := toy) started 0 (getWallet (VStr "w")) 1001
                     unreachable)) = Some obj'
       /\ key obj' = key client /\ secret obj' = secret client
       /\ (nonce obj' = nonce client \/ nonce obj' = nonce client + 1).
Proof.
  destruct (call_moves_only_the_counter (prim := toy) started 0
              (getWallet (VStr "w")) 1001 unreachable client eq_refl)
    as (H1 & _ & _ & obj' & Hd & Hk & Hs & _ & _ & _ & Hn).
  split; [exact H1 |]. exists obj'. auto.
Defined.

(** X11 at a second client constructed at clock reading 5000 on the fixture
    module, followed by two private calls. *)
Lemma fresh_client_counts_from_the_clock_witness :
  nonces_of
    (snd (run (prim := toy) (fst (new_ItBit with_credentials 5000 started))
            [Call 0 (getWallet (VStr "w")) 7000 unreachable;
             Call 1 (getWallet (VStr "w")) 6000 (answers 200 (VObj []))]))
  = [5000; 5001].
Proof.
  exact (fresh_client_counts_from_the_clock (prim := toy) started with_credentials
           5000
           [Call 0 (getWallet (VStr "w")) 7000 unreachable;
            Call 1 (getWallet (VStr "w")) 6000 (answers 200 (VObj []))]
           eq_refl eq_refl eq_refl).
Defined.

(** X12 at [getTicker] on the fixture module. *)
Lemma every_request_goes_to_serverV1_witness :
  exists o,
    In o (sent_of (snd (invoke (prim := toy) started 0 (getTicker (VStr "XBTUSD"))
                          1001 unreachable)))
    /\ exists rest, uri o = "https://api.itbit.com/v1" ++ rest.
Proof.
  eexists. split; [left; reflexivity |].
  exact (every_request_goes_to_serverV1 (prim := toy) started 0
           (getTicker (VStr "XBTUSD")) 1001 unreachable client _ eq_refl
           (or_introl eq_refl)).
Defined.

(** X16 at a POST that hits a dead network. *)
Lemma error_message_names_nonce_and_data_witness :
  exists e,
    delivered
      (executeRequest (prim := toy) client
         {| method := "POST"; uri := "https://api.itbit.com/v1/wallets/w/orders";
            headers := [("X-Auth-Nonce", VNum 1000)]; json := VObj [];
            req_timeout := None |} unreachable)
    = Callback (Some e) VUndefined
    /\ occurs_in " with nonce 1000 and data {}" (message e).
Proof.
  eexists. split; [reflexivity |].
  refine (error_message_names_nonce_and_data (prim := toy) client
            {| method := "POST"; uri := "https://api.itbit.com/v1/wallets/w/orders";
               headers := [("X-Auth-Nonce", VNum 1000)]; json := VObj [];
               req_timeout := None |} unreachable _ _ _ eq_refl).
  discriminate.
Defined.

(** X17 at the user id 1e21, on the fixture module: the plus sign of the
    exponent is escaped. *)
Lemma getWallets_query_witness :
  exists o cb,
    invoke (prim := toy) started 0 (getWallets (VReal (Decimal false 1 22))) 1001
      unreachable
    = (store started (bump client), Returned [o] cb)
    /\ method o = "GET"
    /\ uri o = "https://api.itbit.com/v1/wallets?userId=1e%2B21".
Proof.
  destruct (getWallets_query (prim := toy) started 0 (VReal (Decimal false 1 22))
              1001 unreachable client eq_refl)
    as (o & cb & H1 & H2 & H3 & _);
    [discriminate | discriminate | reflexivity |].
  exists o, cb. auto.
Defined.
